(** * hc-tfe-attestation-probe: a shallow embedding and its properties

    The probe lists the workspaces of a Terraform Enterprise organisation,
    prints the last run of each and, when the run carries a configuration
    version, downloads the two most recent configuration versions, unpacks
    them under /var/tmp and prints a unified diff.

    The development follows the layout of the script:
    - [Py]      the fragment of Python's data model the script relies on
                (JSON values, subscripts, [len], [str], [int], truthiness);
    - [Difflib] [difflib.unified_diff] and the [SequenceMatcher] behind it;
    - [Os]      the file system, the remote service and the effect monad;
    - [Probe]   the script itself: globals, [drawLine], [handleDirectories],
                [callTFE], [runReport], [main];
    - the properties, one section per topic. *)

From Stdlib Require Import ZArith String Ascii List Lia Bool Sorted.
From stdpp Require Import base option list strings gmap fin_maps pretty.

Set Warnings "-register-all".
Local Open Scope Z_scope.

(** ** Python values *)

Module Py.

(** What [json.loads] builds: [None], [bool], [int], [str], [list], [dict].
    A [dict] is kept as its items in insertion order.  A text is the
    sequence of its characters, one [ascii] for each, its value the code
    point: the texts of the model are those whose code points are all below
    256 (the script's own texts and the identifiers of the service are
    ASCII).  Numbers are integers (the service sends no floats in the fields
    the script reads). *)
Inductive json : Type :=
| JNull
| JBool (b : bool)
| JNum (z : Z)
| JStr (s : string)
| JArr (l : list json)
| JObj (kvs : list (string * json)).

(** Exception classes the script can meet, and the exceptions themselves.
    [SystemExit] is what [exit(n)] raises; it derives from [BaseException]
    only, so no [except Exception] clause stops it. *)
Inductive excclass : Type :=
| KeyError | IndexError | TypeError | AttributeError | ValueError
| UnboundLocalError | JSONDecodeError | RequestException | ZlibError
| ReadError | FileExistsError | FileNotFoundError | IsADirectoryError
| NotADirectoryError.

Inductive pyexc : Type :=
| SystemExit (code : Z)
| Exc (cls : excclass) (msg : string).

Inductive result (A : Type) : Type :=
| Ok (a : A)
| Raise (e : pyexc).
Arguments Ok {A} a.
Arguments Raise {A} e.

Definition rbind {A B} (r : result A) (f : A → result B) : result B :=
  match r with Ok a => f a | Raise e => Raise e end.

#[global] Instance excclass_eq_dec : EqDecision excclass.
Proof. solve_decision. Defined.
#[global] Instance pyexc_eq_dec : EqDecision pyexc.
Proof. solve_decision. Defined.

(** The [except] clauses of the script. *)
Inductive handler : Type := HException | HOSError | HKeyError | HFileExistsError.

Definition is_oserror (c : excclass) : bool :=
  match c with
  | FileExistsError | FileNotFoundError | IsADirectoryError
  | NotADirectoryError => true
  | _ => false
  end.

Definition catches (h : handler) (e : pyexc) : bool :=
  match e with
  | SystemExit _ => false
  | Exc c _ =>
      match h with
      | HException => true
      | HOSError => is_oserror c
      | HKeyError => if decide (c = KeyError) then true else false
      | HFileExistsError => if decide (c = FileExistsError) then true else false
      end
  end.

(** *** Texts *)

Definition chars (s : string) : list string :=
  map (λ c, String c EmptyString) (list_ascii_of_string s).

Definition join (sep : string) (l : list string) : string := String.concat sep l.

Definition hexdigit (n : N) : ascii :=
  match n with
  | 0%N => "0" | 1%N => "1" | 2%N => "2" | 3%N => "3" | 4%N => "4"
  | 5%N => "5" | 6%N => "6" | 7%N => "7" | 8%N => "8" | 9%N => "9"
  | 10%N => "a" | 11%N => "b" | 12%N => "c" | 13%N => "d" | 14%N => "e"
  | _ => "f"
  end%char.

Definition hex2 (c : ascii) : string :=
  let n := N_of_ascii c in
  String (hexdigit (n / 16)) (String (hexdigit (n mod 16)) EmptyString).

Definition squote : ascii := "039"%char.
Definition dquote : ascii := "034"%char.
Definition backslash : ascii := "092"%char.

Definition has_char (c : ascii) (s : string) : bool :=
  existsb (Ascii.eqb c) (list_ascii_of_string s).

(** [str.isprintable] on one character. *)
Definition printable (c : ascii) : bool :=
  let n := N_of_ascii c in
  negb ((n <? 32) || (127 <=? n) && (n <=? 160) || (n =? 173))%N.

(** [repr] of a [str]: single quotes unless the text has a single quote and
    no double quote; backslash, the quote and the characters that are not
    printable escaped. *)
Definition repr_char (q : ascii) (c : ascii) : string :=
  if Ascii.eqb c q then String backslash (String c EmptyString)
  else if Ascii.eqb c backslash then "\\"
  else if Ascii.eqb c "010" then "\n"
  else if Ascii.eqb c "013" then "\r"
  else if Ascii.eqb c "009" then "\t"
  else if negb (printable c) then "\x" +:+ hex2 c
  else String c EmptyString.

Definition repr_str (s : string) : string :=
  let q := if has_char squote s && negb (has_char dquote s) then dquote else squote in
  String q (join "" (map (repr_char q) (list_ascii_of_string s))) +:+ String q EmptyString.

(** [str(x)] and [repr(x)], as f-strings and [print] use them. *)
Fixpoint py_repr (x : json) : string :=
  match x with
  | JNull => "None"
  | JBool true => "True"
  | JBool false => "False"
  | JNum z => pretty z
  | JStr s => repr_str s
  | JArr l => "[" +:+ join ", " (map py_repr l) +:+ "]"
  | JObj kvs =>
      "{" +:+ join ", " (map (λ kv, repr_str kv.1 +:+ ": " +:+ py_repr kv.2) kvs) +:+ "}"
  end.

Definition py_str (x : json) : string :=
  match x with
  | JStr s => s
  | _ => py_repr x
  end.

(** [json.dumps(x)] with its defaults: separators [", "] and [": "],
    every character outside the printable ASCII range escaped by its code
    point. *)
Definition dumps_char (c : ascii) : string :=
  if Ascii.eqb c dquote then String backslash (String dquote EmptyString)
  else if Ascii.eqb c backslash then "\\"
  else if Ascii.eqb c "010" then "\n"
  else if Ascii.eqb c "013" then "\r"
  else if Ascii.eqb c "009" then "\t"
  else if Ascii.eqb c "008" then "\b"
  else if Ascii.eqb c "012" then "\f"
  else if (N_of_ascii c <? 32)%N || (126 <? N_of_ascii c)%N
       then "\u00" +:+ hex2 c
  else String c EmptyString.

Definition dumps_str (s : string) : string :=
  String dquote (join "" (map dumps_char (list_ascii_of_string s)))
    +:+ String dquote EmptyString.

Fixpoint json_dumps (x : json) : string :=
  match x with
  | JNull => "null"
  | JBool true => "true"
  | JBool false => "false"
  | JNum z => pretty z
  | JStr s => dumps_str s
  | JArr l => "[" +:+ join ", " (map json_dumps l) +:+ "]"
  | JObj kvs =>
      "{" +:+ join ", " (map (λ kv, dumps_str kv.1 +:+ ": " +:+ json_dumps kv.2) kvs) +:+ "}"
  end.

(** *** Dictionaries, subscripts, [len], truth *)

Fixpoint dict_get {V} (kvs : list (string * V)) (k : string) : option V :=
  match kvs with
  | [] => None
  | (k', v) :: rest => if String.eqb k k' then Some v else dict_get rest k
  end.

(** Number of keys of a dict (a key bound twice counts once). *)
Definition dict_len {V} (kvs : list (string * V)) : nat :=
  length (remove_dups (kvs.*1)).

Inductive subscript : Type :=
| K (k : string)
| I (i : Z).

Definition seq_get {A} (what : string) (l : list A) (i : Z) : result A :=
  let n := Z.of_nat (length l) in
  let j := if i <? 0 then i + n else i in
  if (j <? 0) || (n <=? j) then Raise (Exc IndexError (what +:+ " index out of range"))
  else match l !! Z.to_nat j with
       | Some a => Ok a
       | None => Raise (Exc IndexError (what +:+ " index out of range"))
       end.

Definition type_name (x : json) : string :=
  match x with
  | JNull => "NoneType" | JBool _ => "bool" | JNum _ => "int"
  | JStr _ => "str" | JArr _ => "list" | JObj _ => "dict"
  end.

Definition quoted_type (x : json) : string :=
  String squote (type_name x) +:+ String squote EmptyString.

(** [x[s]] *)
Definition getitem (x : json) (s : subscript) : result json :=
  match x, s with
  | JObj kvs, K k =>
      match dict_get kvs k with
      | Some v => Ok v
      | None => Raise (Exc KeyError (repr_str k))
      end
  | JObj _, I i => Raise (Exc KeyError (pretty i))
  | JArr l, I i => seq_get "list" l i
  | JArr _, K _ => Raise (Exc TypeError "list indices must be integers or slices, not str")
  | JStr t, I i => rbind (seq_get "string" (chars t) i) (λ c, Ok (JStr c))
  | JStr _, K _ => Raise (Exc TypeError "string indices must be integers")
  | _, _ => Raise (Exc TypeError (quoted_type x +:+ " object is not subscriptable"))
  end.

(** [x[s1][s2]...], evaluated left to right. *)
Definition subscripts (x : json) (path : list subscript) : result json :=
  foldl (λ r s, rbind r (λ v, getitem v s)) (Ok x) path.

(** [len(x)] *)
Definition py_len (x : json) : result Z :=
  match x with
  | JObj kvs => Ok (Z.of_nat (dict_len kvs))
  | JArr l => Ok (Z.of_nat (length l))
  | JStr s => Ok (Z.of_nat (String.length s))
  | _ => Raise (Exc TypeError ("object of type " +:+ quoted_type x +:+ " has no len()"))
  end.

(** The truth value of [x] in an [if]. *)
Definition truthy (x : json) : bool :=
  match x with
  | JNull => false
  | JBool b => b
  | JNum z => negb (z =? 0)
  | JStr s => negb (String.eqb s "")
  | JArr l => match l with [] => false | _ => true end
  | JObj kvs => match kvs with [] => false | _ => true end
  end.

Definition as_number (x : json) : option Z :=
  match x with
  | JBool b => Some (if b then 1 else 0)
  | JNum z => Some z
  | _ => None
  end.

(** [a == b]: [True == 1], texts by content, lists item by item, dicts
    key by key whatever the order. *)
Fixpoint py_eq (a b : json) : bool :=
  match a, b with
  | JNull, JNull => true
  | JStr s, JStr t => String.eqb s t
  | JArr l, JArr m =>
      (fix go (l m : list json) : bool :=
         match l, m with
         | [], [] => true
         | x :: l', y :: m' => py_eq x y && go l' m'
         | _, _ => false
         end) l m
  | JObj kvs, JObj kws =>
      (dict_len kvs =? dict_len kws)%nat &&
      (fix go (kvs : list (string * json)) : bool :=
         match kvs with
         | [] => true
         | (k, v) :: r =>
             match dict_get kws k with
             | Some w => py_eq v w
             | None => false
             end && go r
         end) kvs
  | (JBool _ | JNum _), (JBool _ | JNum _) =>
      match as_number a, as_number b with
      | Some x, Some y => x =? y
      | _, _ => false
      end
  | _, _ => false
  end.

(** [x.startswith(p)]: only [str] has the method. *)
Definition startswith (x : json) (p : string) : result bool :=
  match x with
  | JStr s => Ok (String.prefix p s)
  | _ => Raise (Exc AttributeError
                  (quoted_type x +:+ " object has no attribute 'startswith'"))
  end.

(** [x[lo:hi]] for [0 <= lo <= hi]. *)
Definition py_slice (x : json) (lo hi : nat) : result json :=
  match x with
  | JStr s => Ok (JStr (String.substring lo (hi - lo) s))
  | JArr l => Ok (JArr (take (hi - lo) (drop lo l)))
  | JObj _ => Raise (Exc TypeError "unhashable type: 'slice'")
  | _ => Raise (Exc TypeError (quoted_type x +:+ " object is not subscriptable"))
  end.

(** *** [int(text)] and [text.split()] *)

(** The characters [str.split] takes as blanks, and the ones [int]
    strips: [int] leaves the four separators 28 to 31 in place. *)
Definition is_space (c : ascii) : bool :=
  let n := N_of_ascii c in
  ((9 <=? n) && (n <=? 13) || (28 <=? n) && (n <=? 32) || (n =? 133) || (n =? 160))%N.

Definition is_blank (c : ascii) : bool :=
  let n := N_of_ascii c in
  ((9 <=? n) && (n <=? 13) || (n =? 32) || (n =? 133) || (n =? 160))%N.

Definition is_digit (c : ascii) : bool :=
  let n := N_of_ascii c in ((48 <=? n) && (n <=? 57))%N.

Definition digit_value (c : ascii) : Z := Z.of_N (N_of_ascii c) - 48.

(** Digits, with single underscores allowed between two digits. *)
Fixpoint digits_value (cs : list ascii) (acc : Z) (after_digit : bool) : option Z :=
  match cs with
  | [] => if after_digit then Some acc else None
  | c :: r =>
      if is_digit c then digits_value r (10 * acc + digit_value c) true
      else if Ascii.eqb c "_" && after_digit then digits_value r acc false
      else None
  end.

Fixpoint lstrip (cs : list ascii) : list ascii :=
  match cs with
  | c :: r => if is_blank c then lstrip r else cs
  | [] => []
  end.

Definition strip (cs : list ascii) : list ascii :=
  reverse (lstrip (reverse (lstrip cs))).

(** [int(s)] for a text: blanks stripped, an optional sign, digits. *)
Definition int_of_string (s : string) : result Z :=
  let bad := Raise (Exc ValueError
                      ("invalid literal for int() with base 10: " +:+ repr_str s)) in
  let body (cs : list ascii) (sign : Z) :=
    match digits_value cs 0 false with
    | Some v => Ok (sign * v)
    | None => bad
    end in
  match strip (list_ascii_of_string s) with
  | c :: r =>
      if Ascii.eqb c "-" then body r (-1)
      else if Ascii.eqb c "+" then body r 1
      else body (c :: r) 1
  | [] => bad
  end.

(** [int(x)] *)
Definition py_int (x : json) : result Z :=
  match x with
  | JStr s => int_of_string s
  | JNum z => Ok z
  | JBool b => Ok (if b then 1 else 0)
  | _ => Raise (Exc TypeError
                  ("int() argument must be a string, a bytes-like object or a real number, not "
                     +:+ quoted_type x))
  end.

(** [s.split()]: the maximal runs of non-blank characters. *)
Fixpoint split_go (cs : list ascii) (cur : list ascii) : list string :=
  let flush (rest : list string) :=
    match cur with
    | [] => rest
    | _ => string_of_list_ascii (reverse cur) :: rest
    end in
  match cs with
  | [] => flush []
  | c :: r => if is_space c then flush (split_go r []) else split_go r (c :: cur)
  end.

Definition split (s : string) : list string := split_go (list_ascii_of_string s) [].

(** [c * n] for a text [c]. *)
Definition str_mul (c : string) (n : Z) : string :=
  join "" (replicate (Z.to_nat n) c).

(** The items a [for] loop over [x] visits. *)
Definition py_iter (x : json) : result (list json) :=
  match x with
  | JArr l => Ok l
  | JStr s => Ok (map JStr (chars s))
  | JObj kvs => Ok (map JStr (remove_dups (kvs.*1)))
  | _ => Raise (Exc TypeError (quoted_type x +:+ " object is not iterable"))
  end.

End Py.


(** ** difflib *)

(** [difflib.unified_diff] over sequences of texts, with the
    [SequenceMatcher(None, a, b)] it builds: no junk predicate, automatic
    junk heuristic on.  Positions are [nat]; compared items are texts. *)
Module Difflib.

Local Open Scope nat_scope.

Inductive tag : Type := Equal | Replace | Delete | Insert.

#[global] Instance tag_eq_dec : EqDecision tag.
Proof. solve_decision. Defined.

Definition opcode : Type := tag * nat * nat * nat * nat.
Definition block : Type := nat * nat * nat.

Section Matcher.
Variables a b : list string.

  (** [__chain_b]: the positions of [elt] in [b], in increasing order; an
      item is dropped as popular when [b] has 200 items or more and the item
      fills more than one percent of it (plus one). *)
Fixpoint indices_from (i : nat) (l : list string) (elt : string) : list nat :=
    match l with
    | [] => []
    | x :: r =>
        if String.eqb x elt then i :: indices_from (S i) r elt
        else indices_from (S i) r elt
    end.

Definition b2j (elt : string) : list nat :=
    let idxs := indices_from 0 b elt in
    let n := length b in
    if (200 <=? n) && (n / 100 + 1 <? length idxs) then [] else idxs.

Definition j2len_get (m : list (nat * nat)) (j : nat) : nat :=
    match List.find (λ p, p.1 =? j) m with
    | Some p => p.2
    | None => 0
    end.

  (** The inner loop of [find_longest_match] for one [i]: walks the
      positions [j] of [a[i]] in [b], skips those below [blo], stops at the
      first one at or above [bhi]. *)
Fixpoint scan_js (i blo bhi : nat) (j2len : list (nat * nat)) (js : list nat)
      (newj2len : list (nat * nat)) (best : block) : list (nat * nat) * block :=
    match js with
    | [] => (newj2len, best)
    | j :: rest =>
        if j <? blo then scan_js i blo bhi j2len rest newj2len best
        else if bhi <=? j then (newj2len, best)
        else
          let k := (match j with O => 0 | S j' => j2len_get j2len j' end) + 1 in
          let best' :=
            let '(_, _, bestsize) := best in
            if bestsize <? k then (i + 1 - k, j + 1 - k, k) else best in
          scan_js i blo bhi j2len rest ((j, k) :: newj2len) best'
    end.

  (** The outer loop, [for i in range(alo, ahi)], over the items of
      [a[alo:ahi]]. *)
Fixpoint scan_is (i blo bhi : nat) (items : list string)
      (j2len : list (nat * nat)) (best : block) : block :=
    match items with
    | [] => best
    | x :: rest =>
        let '(newj2len, best') := scan_js i blo bhi j2len (b2j x) [] best in
        scan_is (S i) blo bhi rest newj2len best'
    end.

Definition item_eq (i j : nat) : bool :=
    match a !! i, b !! j with
    | Some x, Some y => String.eqb x y
    | _, _ => false
    end.

  (** The two extension loops (the junk ones never run: no item is junk). *)
Fixpoint extend_back (fuel alo blo : nat) (m : block) : block :=
    let '(besti, bestj, bestsize) := m in
    match fuel with
    | O => m
    | S fuel' =>
        if (alo <? besti) && (blo <? bestj) && item_eq (besti - 1) (bestj - 1)
        then extend_back fuel' alo blo (besti - 1, bestj - 1, bestsize + 1)
        else m
    end.

Fixpoint extend_fwd (fuel ahi bhi : nat) (m : block) : block :=
    let '(besti, bestj, bestsize) := m in
    match fuel with
    | O => m
    | S fuel' =>
        if (besti + bestsize <? ahi) && (bestj + bestsize <? bhi)
           && item_eq (besti + bestsize) (bestj + bestsize)
        then extend_fwd fuel' ahi bhi (besti, bestj, bestsize + 1)
        else m
    end.

Definition find_longest_match (alo ahi blo bhi : nat) : block :=
    let m := scan_is alo blo bhi (take (ahi - alo) (drop alo a)) [] (alo, blo, 0) in
    let m := extend_back (length a) alo blo m in
    extend_fwd (length a) ahi bhi m.

  (** The work list of [get_matching_blocks]; [queue.pop()] takes the
      most recently appended range, here the head.  [None] when the fuel
      runs out before the queue is empty. *)
Fixpoint match_queue (fuel : nat) (queue : list (nat * nat * nat * nat))
      (acc : list block) : option (list block) :=
    match queue with
    | [] => Some acc
    | (alo, ahi, blo, bhi) :: queue' =>
        match fuel with
        | O => None
        | S fuel' =>
            let '(i, j, k) := find_longest_match alo ahi blo bhi in
            if k =? 0 then match_queue fuel' queue' acc
            else
              let q1 := if (alo <? i) && (blo <? j)
                        then (alo, i, blo, j) :: queue' else queue' in
              let q2 := if (i + k <? ahi) && (j + k <? bhi)
                        then (i + k, ahi, j + k, bhi) :: q1 else q1 in
              match_queue fuel' q2 (acc ++ [(i, j, k)])
        end
    end.

Definition block_leb (x y : block) : bool :=
    let '(i1, j1, k1) := x in
    let '(i2, j2, k2) := y in
    (i1 <? i2) || ((i1 =? i2) && ((j1 <? j2) || ((j1 =? j2) && (k1 <=? k2)))).

Fixpoint insert_block (x : block) (l : list block) : list block :=
    match l with
    | [] => [x]
    | y :: r => if block_leb x y then x :: l else y :: insert_block x r
    end.

Definition sort_blocks (l : list block) : list block :=
    foldr insert_block [] l.

  (** Adjacent equal blocks are merged; the result ends with the dummy
      [(la, lb, 0)]. *)
Fixpoint collapse (cur : block) (l : list block) : list block :=
    let '(i1, j1, k1) := cur in
    match l with
    | [] => if k1 =? 0 then [] else [cur]
    | (i2, j2, k2) :: r =>
        if (i1 + k1 =? i2) && (j1 + k1 =? j2) then collapse (i1, j1, k1 + k2) r
        else (if k1 =? 0 then [] else [cur]) ++ collapse (i2, j2, k2) r
    end.

Definition get_matching_blocks : option (list block) :=
    let la := length a in
    let lb := length b in
    blocks ← match_queue (2 * la + 1) [(0, la, 0, lb)] [];
    Some (collapse (0, 0, 0) (sort_blocks blocks) ++ [(la, lb, 0)]).

Fixpoint opcodes_from (i j : nat) (blocks : list block) : list opcode :=
    match blocks with
    | [] => []
    | (ai, bj, size) :: r =>
        let change :=
          if (i <? ai) && (j <? bj) then [(Replace, i, ai, j, bj)]
          else if i <? ai then [(Delete, i, ai, j, bj)]
          else if j <? bj then [(Insert, i, ai, j, bj)]
          else [] in
        let same := if size =? 0 then [] else [(Equal, ai, ai + size, bj, bj + size)] in
        change ++ same ++ opcodes_from (ai + size) (bj + size) r
    end.

Definition get_opcodes : option (list opcode) :=
    opcodes_from 0 0 <$> get_matching_blocks.

End Matcher.

(** [get_grouped_opcodes(n)] on the opcode list. *)
Definition fix_first (n : nat) (codes : list opcode) : list opcode :=
  match codes with
  | (Equal, i1, i2, j1, j2) :: r =>
      (Equal, Nat.max i1 (i2 - n), i2, Nat.max j1 (j2 - n), j2) :: r
  | _ => codes
  end.

Definition fix_last (n : nat) (codes : list opcode) : list opcode :=
  match reverse codes with
  | (Equal, i1, i2, j1, j2) :: r =>
      reverse ((Equal, i1, Nat.min i2 (i1 + n), j1, Nat.min j2 (j1 + n)) :: r)
  | _ => codes
  end.

Definition lone_equal (group : list opcode) : bool :=
  match group with
  | [(Equal, _, _, _, _)] => true
  | _ => false
  end.

Fixpoint group_loop (n : nat) (codes group : list opcode) : list (list opcode) :=
  match codes with
  | [] =>
      match group with
      | [] => []
      | _ => if lone_equal group then [] else [group]
      end
  | (tag, i1, i2, j1, j2) :: r =>
      if (if decide (tag = Equal) then true else false) && (n + n <? i2 - i1)
      then (group ++ [(tag, i1, Nat.min i2 (i1 + n), j1, Nat.min j2 (j1 + n))])
             :: group_loop n r [(tag, Nat.max i1 (i2 - n), i2, Nat.max j1 (j2 - n), j2)]
      else group_loop n r (group ++ [(tag, i1, i2, j1, j2)])
  end.

Definition get_grouped_opcodes (a b : list string) (n : nat)
    : option (list (list opcode)) :=
  codes ← get_opcodes a b;
  let codes := match codes with [] => [(Equal, 0, 1, 0, 1)] | _ => codes end in
  Some (group_loop n (fix_last n (fix_first n codes)) []).

Definition _format_range_unified (start stop : nat) : string :=
  let beginning := start + 1 in
  let length := stop - start in
  if length =? 1 then pretty beginning
  else
    let beginning := if length =? 0 then beginning - 1 else beginning in
    pretty beginning +:+ "," +:+ pretty length.

Definition slice (l : list string) (lo hi : nat) : list string :=
  take (hi - lo) (drop lo l).

Definition opcode_lines (a b : list string) (c : opcode) : list string :=
  let '(tag, i1, i2, j1, j2) := c in
  match tag with
  | Equal => map (append " ") (slice a i1 i2)
  | Replace => map (append "-") (slice a i1 i2) ++ map (append "+") (slice b j1 j2)
  | Delete => map (append "-") (slice a i1 i2)
  | Insert => map (append "+") (slice b j1 j2)
  end.

Definition group_lines (a b : list string) (lineterm : string)
    (group : list opcode) : list string :=
  match group, last group with
  | (_, f1, _, f3, _) :: _, Some (_, _, l2, _, l4) =>
      ("@@ -" +:+ _format_range_unified f1 l2 +:+ " +"
         +:+ _format_range_unified f3 l4 +:+ " @@" +:+ lineterm)
        :: concat (map (opcode_lines a b) group)
  | _, _ => []
  end.

(** [unified_diff(a, b, fromfile, tofile, fromfiledate, tofiledate, n,
    lineterm)]: the lines the generator yields, in order. *)
Definition unified_diff (a b : list string)
    (fromfile tofile fromfiledate tofiledate : string) (n : nat)
    (lineterm : string) : option (list string) :=
  groups ← get_grouped_opcodes a b n;
  match groups with
  | [] => Some []
  | _ =>
      let fromdate := if String.eqb fromfiledate "" then ""
                      else String "009" fromfiledate in
      let todate := if String.eqb tofiledate "" then ""
                    else String "009" tofiledate in
      Some (("--- " +:+ fromfile +:+ fromdate +:+ lineterm)
              :: ("+++ " +:+ tofile +:+ todate +:+ lineterm)
              :: concat (map (group_lines a b lineterm) groups))
  end.

End Difflib.

(** ** The world the script runs in *)

Module Os.
Import Py.

(** A tar member: a regular file with its content, or a directory, under
    the name the archive gives it. *)
Inductive member : Type :=
| TFile (name : string) (data : string)
| TDir (name : string).

(** The bytes of a file, by what [tarfile.open] makes of them. *)
Inductive filedata : Type :=
| TarData (members : list member)
| RawData (raw : string).

Inductive node : Type :=
| Dir
| File (data : filedata).

(** The body of an HTTP answer, by what [response.json()] and
    [zlib.decompress] make of it; [Failed] is [requests.get] raising. *)
Inductive body : Type :=
| BodyJson (j : json)
| BodyGzip (data : filedata)
| BodyOther (raw : string).

Inductive response : Type :=
| Resp (b : body)
| Failed (msg : string).

(** The state: the file system as a map from absolute paths to nodes, and
    the remote service as a function of the URL and of the [Authorization]
    header. *)
Record world : Type := World {
  fs : gmap string node;
  net : string → string → response
}.

Definition set_fs (w : world) (m : gmap string node) : world :=
  {| fs := m; net := net w |}.

(** What a run does that can be seen from outside, in order. *)
Inductive event : Type :=
| Print (text : string)
| HttpGet (url auth : string)
| Mkdir (path : string)
| Rmtree (path : string)
| WriteFile (path : string)
| Remove (path : string)
| ExtractAll (dir : string).

#[global] Instance event_eq_dec : EqDecision event.
Proof. solve_decision. Defined.

(** The lines on standard output. *)
Definition stdout (evs : list event) : list string :=
  omap (λ e, match e with Print t => Some t | _ => None end) evs.

(** The URLs requested. *)
Definition requested (evs : list event) : list string :=
  omap (λ e, match e with HttpGet u _ => Some u | _ => None end) evs.

(** *** The effect monad: state, exceptions, trace *)

Record reply (A : Type) : Type := Reply {
  res : result A;
  st : world;
  out : list event
}.
Arguments Reply {A} res st out.
Arguments res {A} r.
Arguments st {A} r.
Arguments out {A} r.

Definition M (A : Type) : Type := world → reply A.

Definition ret {A} (a : A) : M A := λ w, Reply (Ok a) w [].

Definition bind {A B} (m : M A) (f : A → M B) : M B := λ w,
  let r := m w in
  match res r with
  | Ok a => let r' := f a (st r) in Reply (res r') (st r') (out r ++ out r')
  | Raise e => Reply (Raise e) (st r) (out r)
  end.

#[global] Instance M_ret : MRet M := @ret.
#[global] Instance M_bind : MBind M := λ A B f m, bind m f.

Definition raise {A} (e : pyexc) : M A := λ w, Reply (Raise e) w [].

Definition lift {A} (r : result A) : M A := λ w, Reply r w [].

Definition emit (e : event) : M unit := λ w, Reply (Ok tt) w [e].

(** [print(text)]; [print()] is [print ""]. *)
Definition print (text : string) : M unit := emit (Print text).

(** [exit(code)] *)
Definition exit {A} (code : Z) : M A := raise (SystemExit code).

(** [try: m  except h as e: k e] *)
Definition try_except {A} (m : M A) (h : handler) (k : pyexc → M A) : M A := λ w,
  let r := m w in
  match res r with
  | Ok _ => r
  | Raise e =>
      if catches h e
      then let r' := k e (st r) in Reply (res r') (st r') (out r ++ out r')
      else r
  end.

(** [for x in l: f x] *)
Fixpoint for_each {A} (l : list A) (f : A → M unit) : M unit :=
  match l with
  | [] => mret tt
  | x :: r => f x;; for_each r f
  end.

(** [str(e)] for the exception bound by [except ... as e]. *)
Definition exc_text (e : pyexc) : string :=
  match e with
  | SystemExit c => pretty c
  | Exc _ msg => msg
  end.

(** *** System calls *)

Definition oserror (c : excclass) (errno : string) (what path : string) : pyexc :=
  Exc c ("[Errno " +:+ errno +:+ "] " +:+ what +:+ ": " +:+ repr_str path).

(** [os.mkdir(path)] *)
Definition os_mkdir (path : string) : M unit := λ w,
  match fs w !! path with
  | Some _ => Reply (Raise (oserror FileExistsError "17" "File exists" path)) w [Mkdir path]
  | None => Reply (Ok tt) (set_fs w (<[path := Dir]> (fs w))) [Mkdir path]
  end.

Definition under (dir path : string) : bool := String.prefix (dir +:+ "/") path.

(** [shutil.rmtree(path, ignore_errors=False)] *)
Definition shutil_rmtree (path : string) : M unit := λ w,
  match fs w !! path with
  | None =>
      Reply (Raise (oserror FileNotFoundError "2" "No such file or directory" path))
            w [Rmtree path]
  | Some (File _) =>
      Reply (Raise (oserror NotADirectoryError "20" "Not a directory" path)) w [Rmtree path]
  | Some Dir =>
      Reply (Ok tt)
            (set_fs w (filter (λ kv, kv.1 ≠ path ∧ under path kv.1 = false) (fs w)))
            [Rmtree path]
  end.

(** [os.remove(path)] *)
Definition os_remove (path : string) : M unit := λ w,
  match fs w !! path with
  | None =>
      Reply (Raise (oserror FileNotFoundError "2" "No such file or directory" path))
            w [Remove path]
  | Some Dir =>
      Reply (Raise (oserror IsADirectoryError "21" "Is a directory" path)) w [Remove path]
  | Some (File _) => Reply (Ok tt) (set_fs w (delete path (fs w))) [Remove path]
  end.

(** [with open(path, 'wb') as f: f.write(data)] *)
Definition write_file (path : string) (data : filedata) : M unit := λ w,
  match fs w !! path with
  | Some Dir =>
      Reply (Raise (oserror IsADirectoryError "21" "Is a directory" path)) w [WriteFile path]
  | _ => Reply (Ok tt) (set_fs w (<[path := File data]> (fs w))) [WriteFile path]
  end.

(** [requests.get(url, headers={'Authorization': auth, ...})] *)
Definition requests_get (url auth : string) : M body := λ w,
  match net w url auth with
  | Resp b => Reply (Ok b) w [HttpGet url auth]
  | Failed msg => Reply (Raise (Exc RequestException msg)) w [HttpGet url auth]
  end.

(** [response.json()] *)
Definition response_json (b : body) : result json :=
  match b with
  | BodyJson j => Ok j
  | _ => Raise (Exc JSONDecodeError "Expecting value: line 1 column 1 (char 0)")
  end.

(** [zlib.decompress(response.content, zlib.MAX_WBITS|32)] *)
Definition zlib_decompress (b : body) : result filedata :=
  match b with
  | BodyGzip d => Ok d
  | _ => Raise (Exc ZlibError "Error -3 while decompressing data: incorrect header check")
  end.

(** [tarfile.open(path)]: the members of the archive. *)
Definition tarfile_open (path : string) : M (list member) := λ w,
  match fs w !! path with
  | None =>
      Reply (Raise (oserror FileNotFoundError "2" "No such file or directory" path)) w []
  | Some Dir => Reply (Raise (oserror IsADirectoryError "21" "Is a directory" path)) w []
  | Some (File (RawData _)) =>
      Reply (Raise (Exc ReadError "file could not be opened successfully")) w []
  | Some (File (TarData ms)) => Reply (Ok ms) w []
  end.

(** *** Paths, as [tarfile] and the kernel read them

    The file system is keyed by absolute paths in normal form.  A member
    name may hold [.], [..] and empty components, or be absolute, so the
    paths [extractall] builds are resolved the way the kernel does it,
    component by component from the root.  [/var/tmp] and the directories
    above it are there in every world. *)

Definition above_scratch : list string := ["var"; "tmp"].

Fixpoint is_prefix (a b : list string) : bool :=
  match a, b with
  | [], _ => true
  | x :: a', y :: b' => String.eqb x y && is_prefix a' b'
  | _ :: _, [] => false
  end.

(** The path of the place reached by the names [l] from the root. *)
Definition path_of (l : list string) : string := "/" +:+ join "/" l.

Definition kind_at (m : gmap string node) (l : list string) : option node :=
  if is_prefix l above_scratch then Some Dir else m !! path_of l.

(** The non-empty components of a path, each with the text of the path up
    to its end: [os.path.split] of the second is the pair just before and
    the component. *)
Fixpoint prefixes_go (cs seen cur : list ascii) : list (string * string) :=
  let flush (rest : list (string * string)) :=
    match cur with
    | [] => rest
    | _ => (string_of_list_ascii (reverse cur), string_of_list_ascii (reverse seen)) :: rest
    end in
  match cs with
  | [] => flush []
  | c :: r =>
      if Ascii.eqb c "/" then flush (prefixes_go r (c :: seen) [])
      else prefixes_go r (c :: seen) (c :: cur)
  end.

Definition prefixes (p : string) : list (string * string) :=
  prefixes_go (list_ascii_of_string p) [] [].

Inductive errno : Type := ENOENT | ENOTDIR | EEXIST | EISDIR.

Definition os_error (e : errno) (path : string) : pyexc :=
  match e with
  | ENOENT => oserror FileNotFoundError "2" "No such file or directory" path
  | ENOTDIR => oserror NotADirectoryError "20" "Not a directory" path
  | EEXIST => oserror FileExistsError "17" "File exists" path
  | EISDIR => oserror IsADirectoryError "21" "Is a directory" path
  end.

(** One component that is not the last: the place it leads to must be a
    directory. *)
Definition enter (m : gmap string node) (cur : list string) (c : string)
    : errno + list string :=
  if String.eqb c "." then inr cur
  else if String.eqb c ".." then inr (removelast cur)
  else match kind_at m (cur ++ [c]) with
       | Some Dir => inr (cur ++ [c])
       | Some (File _) => inl ENOTDIR
       | None => inl ENOENT
       end.

Fixpoint walk (m : gmap string node) (cur : list string) (cs : list string)
    : errno + list string :=
  match cs with
  | [] => inr cur
  | c :: r =>
      match enter m cur c with
      | inr cur' => walk m cur' r
      | inl e => inl e
      end
  end.

(** Where the components [cs] lead (the last in reverse order first), and
    what is there. *)
Definition resolve (m : gmap string node) (rcs : list string)
    : errno + (list string * option node) :=
  match rcs with
  | [] => inr ([], Some Dir)
  | c :: rhead =>
      match walk m [] (reverse rhead) with
      | inl e => inl e
      | inr cur =>
          if String.eqb c "." then inr (cur, Some Dir)
          else if String.eqb c ".." then inr (removelast cur, Some Dir)
          else inr (cur ++ [c], kind_at m (cur ++ [c]))
      end
  end.

(** [os.path.exists] *)
Definition path_exists (m : gmap string node) (rcs : list string) : bool :=
  match resolve m rcs with
  | inr (_, Some _) => true
  | _ => false
  end.

(** [os.mkdir(name)], [name] with the components [rcs]. *)
Definition mkdir_at (rcs : list string) (name : string) : M unit := λ w,
  match resolve (fs w) rcs with
  | inl e => Reply (Raise (os_error e name)) w []
  | inr (_, Some _) => Reply (Raise (os_error EEXIST name)) w []
  | inr (l, None) => Reply (Ok tt) (set_fs w (<[path_of l := Dir]> (fs w))) []
  end.

(** [open(name, 'wb')] and the write. *)
Definition create_at (rcs : list string) (name : string) (data : filedata) : M unit := λ w,
  match resolve (fs w) rcs with
  | inl e => Reply (Raise (os_error e name)) w []
  | inr (_, Some Dir) => Reply (Raise (os_error EISDIR name)) w []
  | inr (l, _) => Reply (Ok tt) (set_fs w (<[path_of l := File data]> (fs w))) []
  end.

(** [os.makedirs(name)]: the head is made first when it is not there, an
    existing one on the way is no error, and a last component [.] needs no
    directory of its own. *)
Fixpoint makedirs (rps : list (string * string)) : M unit :=
  match rps with
  | [] => raise (os_error EEXIST "/")
  | (tail, name) :: rhead =>
      λ w,
        if path_exists (fs w) (rhead.*1) then mkdir_at (rps.*1) name w
        else
          (try_except (makedirs rhead) HFileExistsError (λ _, mret tt);;
           if String.eqb tail "." then mret tt else mkdir_at (rps.*1) name) w
  end.

Fixpoint dropwhile_slash (cs : list ascii) : list ascii :=
  match cs with
  | c :: r => if Ascii.eqb c "/" then dropwhile_slash r else cs
  | [] => []
  end.

(** [targetpath.rstrip('/')] *)
Definition rstrip_slash (s : string) : string :=
  string_of_list_ascii
    (reverse (dropwhile_slash (reverse (list_ascii_of_string s)))).

(** One member of [extractall(dir)], as [tarfile] does it up to Python
    3.11 (no extraction filter): the directories above the target are made
    when they are missing, a regular file is opened for writing, and for a
    directory [mkdir] is tried and an existing path left as it is. *)
Definition extract_member (dir : string) (m : member) : M unit :=
  let name := match m with TFile name _ | TDir name => name end in
  let target :=
    rstrip_slash (if String.prefix "/" name then name else dir +:+ "/" +:+ name) in
  let rps := reverse (prefixes target) in
  (match rps with
   | [] => mret tt
   | _ :: rhead =>
       λ w, if path_exists (fs w) (rhead.*1) then ret tt w else makedirs rhead w
   end);;
  match m with
  | TFile _ data =>
      if String.eqb target "" then raise (os_error ENOENT target)
      else create_at (rps.*1) target (RawData data)
  | TDir _ =>
      if String.eqb target "" then raise (os_error ENOENT target)
      else try_except (mkdir_at (rps.*1) target) HFileExistsError (λ _, mret tt)
  end.

(** [handle.extractall(dir)] *)
Definition extractall (ms : list member) (dir : string) : M unit :=
  emit (ExtractAll dir);;
  for_each ms (extract_member dir).

End Os.

(** ** The script *)

Module Probe.
Import Py Os.

(** *** Globals *)

(** What the process is started in: its environment variables and what
    [stty size] writes on its standard output. *)
Record environ : Type := Environ {
  getenv : string → option string;
  stty_size : string
}.

(** The module-level names read by the functions.  [TFE_ADDR],
    [TFE_TOKEN] and [TFE_CACERT] hold a text or [None]. *)
Record globals : Type := Globals {
  TFE_ADDR : option string;
  TFE_TOKEN : option string;
  TFE_CACERT : option string;
  rows : string;
  columns : string
}.

Definition cv0tgzDir : string := "/var/tmp/cv0".
Definition cv1tgzDir : string := "/var/tmp/cv1".
Definition cv0tgzPath : string := "/var/tmp/cv0blob.tgz".
Definition cv1tgzPath : string := "/var/tmp/cv1blob.tgz".

(** An optional text inside an f-string. *)
Definition fmt (o : option string) : string :=
  match o with
  | Some s => s
  | None => "None"
  end.

(** The statements of the module body, lines 27-41: [TFE_ADDR] is read and
    its scheme completed before anything checks that it is set. *)
Definition module_body (env : environ) : result globals :=
  match getenv env "TFE_ADDR" with
  | None => Raise (Exc AttributeError "'NoneType' object has no attribute 'startswith'")
  | Some addr =>
      let addr :=
        if negb (String.prefix "https://" addr) && negb (String.prefix "http://" addr)
        then "https://" +:+ addr else addr in
      match split (stty_size env) with
      | [r; c] =>
          Ok {| TFE_ADDR := Some addr;
                TFE_TOKEN := getenv env "TFE_TOKEN";
                TFE_CACERT := getenv env "TFE_CACERT";
                rows := r; columns := c |}
      | r :: c :: _ :: _ =>
          Raise (Exc ValueError "too many values to unpack (expected 2)")
      | l =>
          Raise (Exc ValueError ("not enough values to unpack (expected 2, got "
                                   +:+ pretty (length l) +:+ ")"))
      end
  end.

Module bcolors.
Definition esc (code : string) : string := String "027" ("[" +:+ code).
Definition Red := esc "0;31m".
Definition Green := esc "0;32m".
Definition Blue := esc "0;34m".
Definition Cyan := esc "0;36m".
Definition White := esc "0;37m".
Definition Yellow := esc "0;33m".
Definition Magenta := esc "0;35m".
Definition BRed := esc "1;31m".
Definition BGreen := esc "1;32m".
Definition BBlue := esc "1;34m".
Definition BCyan := esc "1;36m".
Definition BWhite := esc "1;37m".
Definition BYellow := esc "1;33m".
Definition BMagenta := esc "1;35m".
Definition Grey := esc "90m".
Definition Default := esc "1;32m".
Definition Endc := esc "0m".
End bcolors.
Import bcolors.

Section Functions.
Variable g : globals.

  (** *** drawLine *)
Definition drawLine : M unit :=
    print Default;;
    n ← lift (int_of_string (columns g));
    print (str_mul "#" n);;
    print "".

  (** *** handleDirectories *)
Definition handleDirectories (DEBUG : bool) (handle : string) : M unit :=
    let failed (dir : string) (error : pyexc) : M unit :=
      print "";;
      print (BRed +:+ "handleDirectories ERROR failed to " +:+ handle +:+ " "
               +:+ dir +:+ ":" +:+ Endc);;
      print (exc_text error);;
      exit 1 in
    if String.eqb handle "create" then
      for_each [cv0tgzDir; cv1tgzDir] (λ dir,
        try_except
          ((if DEBUG then
              drawLine;;
              print (Magenta +:+ "Creating temporary directory: " +:+ dir +:+ Endc)
            else mret tt);;
           os_mkdir dir)
          HOSError (failed dir))
    else if String.eqb handle "delete" then
      for_each [cv0tgzDir; cv1tgzDir] (λ dir,
        try_except
          ((if DEBUG then
              drawLine;;
              print (Magenta +:+ "Deleting temporary directory: " +:+ dir +:+ Endc)
            else mret tt);;
           shutil_rmtree dir)
          HOSError (failed dir))
    else
      print "";;
      print (BRed +:+ "handleDirectories ERROR internally: handle is " +:+ handle +:+ Endc);;
      exit 1.

  (** *** callTFE *)

  (** Returns the decoded JSON, or the text ['OK'] after a download. *)
Definition callTFE (QUIET DEBUG : bool) (path : string) (downloadPath : string)
      : M json :=
    (if String.eqb path "" then
       print (BRed +:+ "No TFE API in calling path" +:+ Endc);;
       exit 1
     else mret tt);;
    let url := fmt (TFE_ADDR g) +:+ "/api/v2" +:+ path in
    (if negb QUIET && DEBUG then
       print (Magenta +:+ "Calling TFE with " +:+ url +:+ Endc);;
       print ""
     else mret tt);;
    response ← try_except
      (requests_get url ("Bearer " +:+ fmt (TFE_TOKEN g)))
      HException (λ e,
        print "";;
        print (BRed +:+ "ERROR with requests to " +:+ url +:+ ":");;
        print (exc_text e);;
        print Endc;;
        exit 1);
    if String.eqb downloadPath "" then
      j ← lift (response_json response);
      (if DEBUG then
         print "";;
         print (json_dumps j);;
         print ""
       else mret tt);;
      mret j
    else
      try_except
        (data ← lift (zlib_decompress response);
         write_file downloadPath data)
        HException (λ e,
          print "";;
          print (BRed +:+ "ERROR writing to " +:+ downloadPath +:+ ":");;
          print (exc_text e);;
          print Endc;;
          exit 1);;
      mret (JStr "OK").

  (** *** runReport *)

  (** The entry [runReport] keeps for a workspace (each field an f-string
      of the listed attribute). *)
Record wsinfo : Type := WsInfo {
    ws_id : string;
    ws_auto_apply : string;
    ws_created_at : string;
    ws_locked : string;
    ws_speculative_enabled : string;
    ws_terraform_version : string;
    ws_global_remote_state : string;
    ws_resource_count : string;
    ws_can_read_state_versions : string
  }.

  (** [workspaces[name] = info]: a later entry with an equal name replaces
      the value and keeps the place of the first; lists and dicts are not
      hashable. *)
Fixpoint dict_set (d : list (json * wsinfo)) (k : json) (v : wsinfo)
      : list (json * wsinfo) :=
    match d with
    | [] => [(k, v)]
    | (k', v') :: r => if py_eq k' k then (k', v) :: r else (k', v') :: dict_set r k v
    end.

Definition workspace_entry (array_obj : json) : result (json * wsinfo) :=
    let attr (name : string) := subscripts array_obj [K "attributes"; K name] in
    rbind (getitem array_obj (K "id")) (λ id,
    rbind (attr "auto-apply") (λ auto_apply,
    rbind (attr "created-at") (λ created_at,
    rbind (attr "locked") (λ locked,
    rbind (attr "speculative-enabled") (λ speculative_enabled,
    rbind (attr "terraform-version") (λ terraform_version,
    rbind (attr "global-remote-state") (λ global_remote_state,
    rbind (attr "resource-count") (λ resource_count,
    rbind (subscripts array_obj
             [K "attributes"; K "permissions"; K "can-read-state-versions"])
          (λ can_read,
    rbind (attr "name") (λ name,
    match name with
    | JArr _ | JObj _ =>
        Raise (Exc TypeError ("unhashable type: " +:+ quoted_type name))
    | _ =>
        Ok (name,
            {| ws_id := py_str id;
               ws_auto_apply := py_str auto_apply;
               ws_created_at := py_str created_at;
               ws_locked := py_str locked;
               ws_speculative_enabled := py_str speculative_enabled;
               ws_terraform_version := py_str terraform_version;
               ws_global_remote_state := py_str global_remote_state;
               ws_resource_count := py_str resource_count;
               ws_can_read_state_versions := py_str can_read |})
    end)))))))))).

  (** The loop of lines 213-224. *)
Fixpoint build_workspaces (items : list json) (d : list (json * wsinfo))
      : result (list (json * wsinfo)) :=
    match items with
    | [] => Ok d
    | array_obj :: r =>
        rbind (workspace_entry array_obj) (λ kv, build_workspaces r (dict_set d kv.1 kv.2))
    end.

  (** [sorted(workspaces)]: the names in increasing order when they are all
      texts or all numbers; names of other kinds cannot be compared. *)
Definition key_lt (a b : json) : option bool :=
    match a, b with
    | JStr s, JStr t => Some (String.ltb s t)
    | _, _ =>
        match as_number a, as_number b with
        | Some x, Some y => Some (x <? y)
        | _, _ => None
        end
    end.

Fixpoint insert_sorted {V} (x : json * V) (l : list (json * V))
      : result (list (json * V)) :=
    match l with
    | [] => Ok [x]
    | y :: r =>
        match key_lt x.1 y.1 with
        | None =>
            Raise (Exc TypeError
                     ("'<' not supported between instances of " +:+ quoted_type x.1
                        +:+ " and " +:+ quoted_type y.1))
        | Some true => Ok (x :: l)
        | Some false => rbind (insert_sorted x r) (λ r', Ok (y :: r'))
        end
    end.

Definition sorted_items {V} (d : list (json * V)) : result (list (json * V)) :=
    foldl (λ acc x, rbind acc (insert_sorted x)) (Ok []) d.

  (** The names [runReport] assigns inside the loop over the workspaces and
      reads again later, possibly in a later iteration: [None] stands for a
      name that has not been assigned yet. *)
Record locals : Type := Locals {
    cvListBlob : option json;
    firstCV : option bool;
    multipleCV : option bool
  }.

  (** The [UnboundLocalError] for the local [name].  The wording of its
      message is the interpreter's (it changed with CPython 3.11) and no
      handler of the script encloses a read of these names, so the message
      is never printed: the exception is kept with the name in its
      place. *)
Definition unbound (name : string) : pyexc := Exc UnboundLocalError name.

Definition read_local {A} (name : string) (v : option A) : result A :=
    match v with
    | Some a => Ok a
    | None => Raise (unbound name)
    end.

Definition run_line (label colour value : string) : string :=
    Green +:+ "run." +:+ BCyan +:+ label +:+ colour +:+ value +:+ Endc.

Definition cv_id_path : list subscript :=
    [K "data"; I 0; K "relationships"; K "configuration-version"; K "data"; K "id"].

Definition created_by_path : list subscript :=
    [K "data"; I 0; K "relationships"; K "created-by"; K "data"; K "id"].

  (** [a != b] *)
Definition py_ne (a b : json) : bool := negb (py_eq a b).

  (** The common shape of the handlers: message, exception, colour reset,
      [exit(1)]. *)
Definition fatal {A} (text : string) (error : pyexc) : M A :=
    print text;;
    print (exc_text error);;
    print Endc;;
    exit 1.

  (** Lines 263-275: the list of configuration versions is fetched when the
      run names one, and one of two flags is set from the length of the
      answer.  The subscripts of this block are all evaluated before its
      first assignment, so the [KeyError] clause meets the names as they
      were. *)
Definition listVersions (QUIET DEBUG : bool) (ws : wsinfo) (runBlob : json)
      (l : locals) : M locals :=
    try_except
      (cv ← lift (subscripts runBlob cv_id_path);
       is_cv ← lift (startswith cv "cv-");
       if is_cv : bool then
         blob ← callTFE QUIET DEBUG
                  ("/workspaces/" +:+ ws_id ws +:+ "/configuration-versions") "";
         let l := {| cvListBlob := Some blob; firstCV := firstCV l;
                     multipleCV := multipleCV l |} in
         n ← lift (py_len blob);
         if n =? 0 then
           cv ← lift (subscripts runBlob cv_id_path);
           print (BRed
                    +:+ "ERROR: Configuration version list blob is empty, but configuration version "
                    +:+ py_str cv +:+ " detected." +:+ Endc +:+ ". Exiting here");;
           exit 1
         else if n =? 1 then
           mret {| cvListBlob := cvListBlob l; firstCV := Some true;
                   multipleCV := multipleCV l |}
         else
           mret {| cvListBlob := cvListBlob l; firstCV := firstCV l;
                   multipleCV := Some true |}
       else mret l)
      HKeyError (λ _,
        print (run_line "Configuration Versions:    " BRed "List Not Found");;
        mret l).

  (** Lines 279-291: position 0 is checked against the run, then the
      identifiers and download links of positions 0 and 1 are read.
      Returns [(cv0, cv1)]. *)
Definition pickVersions (runBlob : json) (l : locals) : M (json * json) :=
    cv ← lift (subscripts runBlob cv_id_path);
    blob ← lift (read_local "cvListBlob" (cvListBlob l));
    head ← lift (subscripts blob [K "data"; I 0; K "id"]);
    (if py_ne cv head then
       print (BRed +:+ "ERROR: Configuration version (" +:+ py_str cv
                +:+ ") is different from element 0 in the configuration versions blob ("
                +:+ py_str head +:+ ")." +:+ Endc +:+ ". Exiting here");;
       exit 1
     else mret tt);;
    cv0 ← lift (subscripts blob [K "data"; I 0; K "id"]);
    cv0download ← lift (subscripts blob [K "data"; I 0; K "links"; K "download"]);
    cv1 ← lift (subscripts blob [K "data"; I 1; K "id"]);
    cv1download ← lift (subscripts blob [K "data"; I 1; K "links"; K "download"]);
    (if truthy cv0 && truthy cv0download && truthy cv1 && truthy cv1download then
       print (run_line "Latest CV:                 " BCyan (py_str cv0));;
       print (run_line "Latest CV Download:        " BCyan (py_str cv0download));;
       print (run_line "Previous CV:               " BCyan (py_str cv1));;
       print (run_line "Previous CV Download:      " BCyan (py_str cv1download))
     else mret tt);;
    mret (cv0, cv1).

  (** Lines 293-300: both archives are fetched by identifier; the second
      check looks at the first result again. *)
Definition downloadVersions (QUIET DEBUG : bool) (cv0 cv1 : json) : M unit :=
    let failed :=
      print (BRed +:+ "ERROR: Download configuration version 0 " +:+ py_str cv0
               +:+ " failed." +:+ Endc +:+ ". Exiting here");;
      exit 1 in
    cv0blobDownloadCheck ← callTFE QUIET DEBUG
      ("/configuration-versions/" +:+ py_str cv0 +:+ "/download") cv0tgzPath;
    (if py_ne cv0blobDownloadCheck (JStr "OK") then failed else mret tt);;
    cv1blobDownloadCheck ← callTFE QUIET DEBUG
      ("/configuration-versions/" +:+ py_str cv1 +:+ "/download") cv1tgzPath;
    (if py_ne cv0blobDownloadCheck (JStr "OK") then failed else mret tt).

  (** Lines 304-338: both archives are opened, then unpacked. *)
Definition extractVersions : M unit :=
    print (Green +:+ "config." +:+ BCyan +:+ "Configuration Changes:" +:+ Endc);;
    cv0tgzFH ← try_except (tarfile_open cv0tgzPath) HException
      (fatal (BRed +:+ "ERROR: Failed to open tar file " +:+ cv0tgzPath +:+ "."
                +:+ Endc +:+ ". Exiting here"));
    cv1tgzFH ← try_except (tarfile_open cv1tgzPath) HException
      (fatal (BRed +:+ "ERROR: Failed to open tar file " +:+ cv1tgzPath +:+ "."
                +:+ Endc +:+ ". Exiting here"));
    try_except (extractall cv0tgzFH cv0tgzDir) HFileExistsError
      (fatal (BRed +:+ "ERROR: Failed to extract configuration tar file " +:+ cv0tgzPath
                +:+ "." +:+ Endc +:+ ". Exiting here"));;
    try_except (extractall cv1tgzFH cv1tgzDir) HFileExistsError
      (fatal (BRed +:+ "ERROR: Failed to extract configuration tar file " +:+ cv1tgzPath
                +:+ "." +:+ Endc +:+ ". Exiting here")).

  (** Lines 340-347 *)
Definition removeArchives : M unit :=
    try_except (os_remove cv0tgzPath;; os_remove cv1tgzPath) HException
      (fatal (BRed +:+ "ERROR: Failed to remove configuration tar files " +:+ cv0tgzPath
                +:+ " and " +:+ cv1tgzPath +:+ "." +:+ Endc +:+ ". Exiting here")).

  (** Lines 351-358: [unified_diff] is handed the two directory names, that
      is two sequences of characters.  (The matcher of [Difflib] is defined
      with a bound on its work list; [diff_of_names] below shows the bound
      is not reached here.) *)
Definition diffDirs : M unit :=
    try_except
      (match Difflib.unified_diff (chars cv0tgzDir) (chars cv1tgzDir)
                                  cv0tgzDir cv1tgzDir "" "" 0 "" with
       | Some lines => for_each lines print
       | None => raise (Exc ValueError "unified_diff")
       end)
      HException
      (fatal (BRed +:+ "ERROR: Failed to diff configurations " +:+ cv0tgzDir +:+ " and "
                +:+ cv1tgzDir +:+ "." +:+ Endc +:+ ". Exiting here")).

  (** Lines 277-358 *)
Definition diffVersions (QUIET DEBUG : bool) (runBlob : json) (l : locals) : M unit :=
    '(cv0, cv1) ← pickVersions runBlob l;
    downloadVersions QUIET DEBUG cv0 cv1;;
    extractVersions;;
    removeArchives;;
    diffDirs.


  (** Lines 360-408: one attribute of the run, or a default when a key is
      missing. *)
Definition run_attr (runBlob : json) (label colour : string) (path : list subscript)
      (endc : string) (missing_colour missing : string) : M unit :=
    try_except
      (v ← lift (subscripts runBlob ([K "data"; I 0; K "attributes"] ++ path));
       print (Green +:+ "run." +:+ BCyan +:+ label +:+ colour +:+ py_str v +:+ endc))
      HKeyError (λ _, print (run_line label missing_colour missing)).

Definition run_stamp (runBlob : json) (label key : string) (endc missing : string)
      : M unit :=
    run_attr runBlob label BCyan [K "status-timestamps"; K key] endc BYellow missing.

  (** Lines 360-416 *)
Definition runDetails (runBlob : json) : M unit :=
    run_attr runBlob "Canceled:                  " BYellow [K "canceled-at"] Endc
             BCyan "Not canceled";;
    run_attr runBlob "Created:                   " BCyan [K "created-at"] Endc
             BYellow "Not Created";;
    run_stamp runBlob "Plan Queueable:            " "plan-queueable-at" Endc "Not Queueable";;
    run_stamp runBlob "Plan Queued:               " "plan-queued-at" Endc "Not Queued";;
    run_stamp runBlob "Planning:                  " "planning-at" Endc "Not Planned";;
    run_stamp runBlob "Planned:                   " "planned-at" Endc "Not Planned";;
    run_stamp runBlob "Apply Queued:              " "apply-queued-at" Endc "No Apply Queued";;
    run_stamp runBlob "Applying:                  " "applying-at" Endc "Not Applied";;
    run_stamp runBlob "Confirmed:                 " "confirmed-at" Endc "Not Confirmed";;
    run_stamp runBlob "Applied:                   " "applied-at" "" "Not Applied";;
    try_except
      (status ← lift (subscripts runBlob [K "data"; I 0; K "attributes"; K "status"]);
       if py_eq status (JStr "applied") then
         print (run_line "Status (Outcome):          " Default "applied")
       else
         print (run_line "Status (Outcome):          " BYellow (py_str status)))
      HKeyError (λ _, print (run_line "Status (Outcome):          " BRed "UNKNOWN")).

Definition ws_line (label value : string) : string :=
    Green +:+ "workspace." +:+ Default +:+ label +:+ value +:+ Endc.

  (** Lines 245-254: the run, its author and its configuration version. *)
Definition describeRun (runBlob : json) : M unit :=
    run_id ← lift (subscripts runBlob [K "data"; I 0; K "id"]);
    print (run_line "Last Run:                  " BCyan (py_str run_id));;
    user ← lift (subscripts runBlob created_by_path);
    (if truthy user then
       print (run_line "Created by:                " BBlue (py_str user))
     else
       print (run_line "Created by:                " BRed "No user found!"));;
    cv ← lift (subscripts runBlob cv_id_path);
    (if truthy cv then
       print (run_line "Configuration Version:     " BBlue (py_str cv))
     else
       print (run_line "Configuration Version:     " BRed
                       "No configuration version found!")).

  (** Lines 263-358: the versions are listed and, when [multipleCV] is
      [True], compared.  [multipleCV] is read whether or not this iteration
      assigned it. *)
Definition compareVersions (QUIET DEBUG : bool) (ws : wsinfo) (runBlob : json)
      (l : locals) : M locals :=
    l ← listVersions QUIET DEBUG ws runBlob l;
    multiple ← lift (read_local "multipleCV" (multipleCV l));
    (if multiple : bool then diffVersions QUIET DEBUG runBlob l else mret tt);;
    mret l.

  (** The body of the loop over the sorted workspaces, lines 226-423. *)
Definition reportWorkspace (QUIET DEBUG : bool) (key : json) (ws : wsinfo)
      (l : locals) : M locals :=
    print (ws_line "Name:                " (BMagenta +:+ py_str key));;
    print (ws_line "ID:                  " (BCyan +:+ ws_id ws));;
    print (ws_line "TF Version:          " (ws_terraform_version ws));;
    print (ws_line "Created:             " (ws_created_at ws));;
    let colour := if String.eqb (ws_locked ws) "True" then BRed else Default in
    print (ws_line "Locked:              " (colour +:+ ws_locked ws));;
    print (ws_line "Speculative Enabled: " (ws_speculative_enabled ws));;
    print (ws_line "Global Remote State: " (ws_global_remote_state ws));;
    print (ws_line "Resources in State:  " (ws_resource_count ws));;
    runBlob ← callTFE QUIET DEBUG
      ("/workspaces/" +:+ ws_id ws +:+ "/runs?page%5Bsize%5D=1") "";
    n ← lift (rbind (getitem runBlob (K "data")) py_len);
    l ← (if n =? 0 then
           print (run_line "Last Run:                  " BYellow "No runs yet");;
           mret l
         else
           describeRun runBlob;;
           l ← compareVersions QUIET DEBUG ws runBlob l;
           runDetails runBlob;;
           mret l);
    print "";;
    mret l.

Fixpoint reportLoop (QUIET DEBUG : bool) (items : list (json * wsinfo)) (l : locals)
      : M locals :=
    match items with
    | [] => mret l
    | (key, ws) :: r =>
        l ← reportWorkspace QUIET DEBUG key ws l;
        reportLoop QUIET DEBUG r l
    end.

Definition no_locals : locals :=
    {| cvListBlob := None; firstCV := None; multipleCV := None |}.

Definition runReport (QUIET DEBUG : bool) (org : string) : M unit :=
    (if negb QUIET then
       drawLine;;
       print (Green +:+ "TFE." +:+ Default +:+ "Address:         " +:+ BWhite
                +:+ fmt (TFE_ADDR g) +:+ Endc);;
       print (Green +:+ "TFE." +:+ Default +:+ "CA Cert file:    " +:+ BWhite
                +:+ fmt (TFE_CACERT g) +:+ Endc);;
       if DEBUG then
         print (Green +:+ "TFE." +:+ Default +:+ "TFE Token:       " +:+ BWhite
                  +:+ fmt (TFE_TOKEN g) +:+ Endc)
       else mret tt
     else mret tt);;
    releaseBlob ← callTFE QUIET DEBUG "/admin/release" "";
    release ← lift (getitem releaseBlob (K "release"));
    print (Green +:+ "TFE." +:+ Default +:+ "Release:         " +:+ BMagenta
             +:+ py_str release +:+ Endc);;
    yearMonth ← lift (rbind (py_slice release 1 7) py_int);
    (if yearMonth <? 202203 then
       print "";;
       print (BRed +:+ "ERROR: Your TFE release version (" +:+ py_str release
                +:+ ") needs to be >= 202203-1 in order to be able to download the configuration versions required to putative understand changes. Exiting here");;
       exit 1
     else mret tt);;
    (if negb QUIET then drawLine else mret tt);;
    workspaceBlob ← callTFE QUIET DEBUG ("/organizations/" +:+ org +:+ "/workspaces") "";
    items ← lift (rbind (getitem workspaceBlob (K "data")) py_iter);
    workspaces ← lift (build_workspaces items []);
    ordered ← lift (sorted_items workspaces);
    reportLoop QUIET DEBUG ordered no_locals;;
    (if negb QUIET then print "" else mret tt).

  (** *** main *)

  (** The [Namespace] that [parse_args] returns. *)
Record arguments : Type := Arguments {
    arg_org : option string;
    arg_quiet : bool;
    arg_debug : bool
  }.

Definition main (arg : arguments) : M unit :=
    (if TFE_ADDR g is None then
       print (BRed +:+ "ERROR: Please export TFE_ADDR as an environment variable in the form https://dev-tfe.hsbc.com" +:+ Endc);;
       exit 1
     else mret tt);;
    (if TFE_TOKEN g is None then
       print (BRed +:+ "ERROR: Please export TFE_TOKEN as an environment variable" +:+ Endc);;
       exit 1
     else mret tt);;
    (if TFE_CACERT g is None then
       print (BRed +:+ "ERROR: Please export local path to TFE_CACERT as an environment variable" +:+ Endc);;
       exit 1
     else mret tt);;
    let QUIET := arg_quiet arg in
    let DEBUG := arg_debug arg in
    let missing_org : M string :=
      print (BRed +:+ "ERROR: Please supply an org name with -o" +:+ Endc);;
      exit 1 in
    org ← match arg_org arg with
          | Some org => if String.eqb org "" then missing_org else mret org
          | None => missing_org
          end;
    handleDirectories DEBUG "create";;
    runReport QUIET DEBUG org;;
    handleDirectories DEBUG "delete".

End Functions.

(** The process: the module body runs first, then [main] when the file is
    run as a script. *)
Definition program (env : environ) (arg : arguments) : M unit :=
  g ← lift (module_body env);
  main g arg.

End Probe.

(** ** Vocabulary of the properties *)

Module Facts.
Import Py Os Probe Probe.bcolors.

(** [evs] happened, then [r]. *)
Definition prepend {A} (evs : list event) (r : reply A) : reply A :=
  Reply (res r) (st r) (evs ++ out r).

(** The run ended in an exception (an [exit] included). *)
Definition faults {A} (r : reply A) : Prop := ∃ e, res r = Raise e.

(** Both scratch directories are there. *)
Definition staged (w : world) : Prop :=
  fs w !! cv0tgzDir = Some Dir ∧ fs w !! cv1tgzDir = Some Dir.

(** Neither scratch directory is there. *)
Definition unstaged (w : world) : Prop :=
  fs w !! cv0tgzDir = None ∧ fs w !! cv1tgzDir = None.

(** From [w] to [w'] no directory went away or changed kind, and no path
    other than the two archive files went away. *)
Definition grows (w w' : world) : Prop :=
  ∀ p, (fs w !! p = Some Dir → fs w' !! p = Some Dir)
       ∧ (is_Some (fs w !! p) → p ≠ cv0tgzPath → p ≠ cv1tgzPath → is_Some (fs w' !! p)).

(** A computation that, from any world, ends in a world related to it by
    [R] and leaves a trace accepted by [E]. *)
Definition Keeps {A} (R : world → world → Prop) (E : list event → Prop)
    (m : M A) : Prop :=
  ∀ w, R w (st (m w)) ∧ E (out (m w)).

Definition any_trace : list event → Prop := λ _, True.
Definition any_step : world → world → Prop := λ _ _, True.
Definition no_request : list event → Prop := λ evs, requested evs = [].

(** A computation under which the file system only grows. *)
Definition Grows {A} (m : M A) : Prop := Keeps grows any_trace m.

(** A computation that sends no request. *)
Definition Offline {A} (m : M A) : Prop := Keeps any_step no_request m.

(** A computation that prints nothing, asks nothing of the service, and
    under which the file system only grows. *)
Definition Quiet {A} (m : M A) : Prop := Keeps grows (eq []) m.

(** A computation that leaves the world as it is. *)
Definition Frozen {A} (m : M A) : Prop := Keeps eq any_trace m.

(** The names as a run of the loop can meet them: the flags are only ever
    assigned [True]. *)
Definition reachable (l : locals) : Prop :=
  firstCV l ≠ Some false ∧ multipleCV l ≠ Some false.

(** The terminal width read at start-up is a number, so [drawLine] can
    draw its line. *)
Definition tty_ok (g : globals) : Prop := ∃ n, int_of_string (columns g) = Ok n.

(** The URL [callTFE] requests for [path], and the credential it sends. *)
Definition api (g : globals) (path : string) : string :=
  fmt (TFE_ADDR g) +:+ "/api/v2" +:+ path.

Definition bearer (g : globals) : string := "Bearer " +:+ fmt (TFE_TOKEN g).

(** What [callTFE] prints around a request. *)
Definition calling (g : globals) (QUIET DEBUG : bool) (path : string) : list event :=
  if negb QUIET && DEBUG
  then [Print (Magenta +:+ "Calling TFE with " +:+ api g path +:+ Endc); Print ""]
  else [].

Definition dumped (DEBUG : bool) (j : json) : list event :=
  if DEBUG then [Print ""; Print (json_dumps j); Print ""] else [].

(** The trace of a successful metadata call. *)
Definition fetched (g : globals) (QUIET DEBUG : bool) (path : string) (j : json)
    : list event :=
  calling g QUIET DEBUG path ++ [HttpGet (api g path) (bearer g)] ++ dumped DEBUG j.

(** The archive a download of [path] into [target] would store, if any:
    the answer must decompress and [target] must not be a directory. *)
Definition downloadable (g : globals) (w : world) (path target : string)
    : option filedata :=
  match net w (api g path) (bearer g) with
  | Resp (BodyGzip d) => if fs w !! target is Some Dir then None else Some d
  | _ => None
  end.


Definition versions_path (ws : wsinfo) : string :=
  "/workspaces/" +:+ ws_id ws +:+ "/configuration-versions".

Definition download_path (cv : json) : string :=
  "/configuration-versions/" +:+ py_str cv +:+ "/download".

(** The line [handleDirectories] prints when [handle] fails on [dir]. *)
Definition failed_to (handle dir : string) : string :=
  BRed +:+ "handleDirectories ERROR failed to " +:+ handle +:+ " " +:+ dir +:+ ":" +:+ Endc.

(** The line printed when the run and position 0 of the list disagree. *)
Definition mismatch_line (cv head : json) : string :=
  BRed +:+ "ERROR: Configuration version (" +:+ py_str cv
    +:+ ") is different from element 0 in the configuration versions blob ("
    +:+ py_str head +:+ ")." +:+ Endc +:+ ". Exiting here".

(** The line printed when the answer to the listing is empty. *)
Definition empty_list_line (cv : json) : string :=
  BRed +:+ "ERROR: Configuration version list blob is empty, but configuration version "
    +:+ py_str cv +:+ " detected." +:+ Endc +:+ ". Exiting here".

(** The line [runReport] prints for the token under [--debug]. *)
Definition token_line (token : string) : string :=
  Green +:+ "TFE." +:+ Default +:+ "TFE Token:       " +:+ BWhite +:+ token +:+ Endc.

(** What [unified_diff] yields for the two directory names. *)
Definition name_diff : list string :=
  ["--- /var/tmp/cv0"; "+++ /var/tmp/cv1"; "@@ -12 +12 @@"; "-0"; "+1"].

(** What [pickVersions] prints once the four values are read. *)
Definition picked (cv0 cv0download cv1 cv1download : json) : list event :=
  if truthy cv0 && truthy cv0download && truthy cv1 && truthy cv1download then
    [Print (run_line "Latest CV:                 " BCyan (py_str cv0));
     Print (run_line "Latest CV Download:        " BCyan (py_str cv0download));
     Print (run_line "Previous CV:               " BCyan (py_str cv1));
     Print (run_line "Previous CV Download:      " BCyan (py_str cv1download))]
  else [].

(** The world after [data] was stored at [target]. *)
Definition stored (w : world) (target : string) (data : filedata) : world :=
  set_fs w (<[target := File data]> (fs w)).

(** What the three steps after the downloads leave on the trace when all
    of them succeed. *)
Definition unpacked : list event :=
  [Print (Green +:+ "config." +:+ BCyan +:+ "Configuration Changes:" +:+ Endc);
   ExtractAll cv0tgzDir; ExtractAll cv1tgzDir;
   Remove cv0tgzPath; Remove cv1tgzPath].









(** The status the process ends with when [e] reaches the top level: the
    code of an [exit], 1 for any other exception. *)
Definition exit_status (e : pyexc) : Z :=
  match e with
  | SystemExit c => c
  | Exc _ _ => 1
  end.

(** The download link of a version as the service writes it: the path of
    the endpoint under which [downloadVersions] asks for the archive. *)
Definition endpoint_link (cv : json) : json := JStr ("/api/v2" +:+ download_path cv).

(** The checks at the head of [main] pass: the three variables are set
    and an organisation is named. *)
Definition inputs_complete (g : globals) (arg : arguments) : Prop :=
  is_Some (TFE_ADDR g) ∧ is_Some (TFE_TOKEN g) ∧ is_Some (TFE_CACERT g)
  ∧ ∃ org, arg_org arg = Some org ∧ org ≠ "".

End Facts.

(** ** Concrete runs *)

(** Small worlds on which the properties below are exercised. *)
Module Scenario.
Import Py Os Probe Facts.

Definition g0 : globals :=
  {| TFE_ADDR := Some "https://tfe"; TFE_TOKEN := Some "s3cr3t";
     TFE_CACERT := Some "/etc/ca.pem"; rows := "24"; columns := "4" |}.

(** [g] with another token. *)
Definition with_token (g : globals) (token : string) : globals :=
  {| TFE_ADDR := TFE_ADDR g; TFE_TOKEN := Some token; TFE_CACERT := TFE_CACERT g;
     rows := rows g; columns := columns g |}.

Definition env_no_addr : environ :=
  {| getenv := λ name, if String.eqb name "TFE_TOKEN" then Some "s3cr3t" else None;
     stty_size := "24 80" |}.

Definition args0 (debug : bool) : arguments :=
  {| arg_org := Some "acme"; arg_quiet := false; arg_debug := debug |}.

(** A service that cannot be reached. *)
Definition net_down : string → string → response := λ _ _, Failed "connection refused".

Definition w_down : world := {| fs := ∅; net := net_down |}.

(** The first scratch directory was left behind by an earlier run. *)
Definition w_stale : world := {| fs := {[ cv0tgzDir := Dir ]}; net := net_down |}.

(** One workspace whose last run names [run_cv]; the listing of its
    configuration versions answers [versions]; every archive unpacks to
    [main.tf]. *)
Definition ws1 : json :=
  JObj [("id", JStr "ws-1");
        ("attributes",
         JObj [("name", JStr "alpha"); ("auto-apply", JBool false);
               ("created-at", JStr "2022-05-24"); ("locked", JBool false);
               ("speculative-enabled", JBool true); ("terraform-version", JStr "1.1.9");
               ("global-remote-state", JBool false); ("resource-count", JNum 3);
               ("permissions", JObj [("can-read-state-versions", JBool true)])])].

Definition run_of (run_cv : string) : json :=
  JObj [("data",
         JArr [JObj [("id", JStr "run-1");
                     ("relationships",
                      JObj [("created-by", JObj [("data", JObj [("id", JStr "user-1")])]);
                            ("configuration-version",
                             JObj [("data", JObj [("id", JStr run_cv)])])]);
                     ("attributes", JObj [("status", JStr "applied")])]])].

Definition version (id link : string) : json :=
  JObj [("id", JStr id); ("links", JObj [("download", JStr link)])].

Definition archive (text : string) : filedata := TarData [TFile "main.tf" text].

Definition wsinfo1 : wsinfo :=
  {| ws_id := "ws-1"; ws_auto_apply := "False"; ws_created_at := "2022-05-24";
     ws_locked := "False"; ws_speculative_enabled := "True";
     ws_terraform_version := "1.1.9"; ws_global_remote_state := "False";
     ws_resource_count := "3"; ws_can_read_state_versions := "True" |}.

Definition net_of (run_cv : string) (versions : json) : string → string → response :=
  λ url _,
    if String.eqb url "https://tfe/api/v2/admin/release"
    then Resp (BodyJson (JObj [("release", JStr "v202204-1")]))
    else if String.eqb url "https://tfe/api/v2/organizations/acme/workspaces"
    then Resp (BodyJson (JObj [("data", JArr [ws1])]))
    else if String.eqb url "https://tfe/api/v2/workspaces/ws-1/runs?page%5Bsize%5D=1"
    then Resp (BodyJson (run_of run_cv))
    else if String.eqb url "https://tfe/api/v2/workspaces/ws-1/configuration-versions"
    then Resp (BodyJson versions)
    else if String.prefix "https://tfe/api/v2/configuration-versions/" url
    then Resp (BodyGzip (archive "foo=1"))
    else Failed "404".

Definition world_of (run_cv : string) (versions : json) (files : gmap string node)
    : world :=
  {| fs := files; net := net_of run_cv versions |}.

(** Two versions, the answer to the listing as the service sends it. *)
Definition two_versions : json :=
  JObj [("data", JArr [version "cv-2" "https://archivist/v1/object/aaa";
                       version "cv-1" "https://archivist/v1/object/bbb"]);
        ("links", JObj []); ("meta", JObj [])].

(** One version only. *)
Definition one_version : json :=
  JObj [("data", JArr [version "cv-1" "https://archivist/v1/object/aaa"]);
        ("links", JObj []); ("meta", JObj [])].

(** No version at all. *)
Definition no_version : json :=
  JObj [("data", JArr []); ("links", JObj []); ("meta", JObj [])].

(** A version with the download link the service gives it. *)
Definition served (id : string) : json :=
  JObj [("id", JStr id);
        ("links", JObj [("download",
                         JStr ("/api/v2/configuration-versions/" +:+ id +:+ "/download"))])].

(** Two versions, the first the run's, in the answer of the service. *)
Definition served_pair : json :=
  JObj [("data", JArr [served "cv-2"; served "cv-1"]); ("links", JObj []);
        ("meta", JObj [])].


(** Two versions, none of them the run's, in the answer of the service. *)
Definition stale_versions : json :=
  JObj [("data", JArr [served "cv-9"; served "cv-8"]); ("links", JObj []);
        ("meta", JObj [])].

Definition staged_files : gmap string node :=
  {[ cv0tgzDir := Dir; cv1tgzDir := Dir ]}.




(** What [extractall] into [/var/tmp/cv0] leaves of the file system
    [files], and how it ends. *)
Definition unpack (files : list (string * node)) (ms : list member)
    : result unit * list (string * node) :=
  let w := {| fs := list_to_map (("/var/tmp/cv0", Dir) :: files);
              net := λ _ _, Failed "" |} in
  let r := extractall ms "/var/tmp/cv0" w in
  (res r, map_to_list (fs (st r))).

End Scenario.
Section PyExamples.
Import Py.
Local Open Scope string_scope.

Example int_release : py_int (JStr "202203") = Ok 202203.
  Proof. reflexivity. Qed.

Example int_bad : py_int (JStr "20x") =
    Raise (Exc ValueError "invalid literal for int() with base 10: '20x'").
  Proof. reflexivity. Qed.

Example split_stty : Py.split "24 80
" = ["24"; "80"].
  Proof. reflexivity. Qed.

Example path_hit :
    subscripts (JObj [("data", JArr [JObj [("id", JStr "cv-1")]])])
               [K "data"; I 0; K "id"] = Ok (JStr "cv-1").
  Proof. reflexivity. Qed.

Example path_miss :
    subscripts (JObj [("data", JArr [])]) [K "data"; I 0; K "id"]
    = Raise (Exc IndexError "list index out of range").
  Proof. reflexivity. Qed.

Example len_counts_keys :
    py_len (JObj [("data", JArr []); ("links", JObj []); ("meta", JObj [])]) = Ok 3.
  Proof. reflexivity. Qed.

  (** [int] strips blanks, the no-break space among them, and leaves the
      separators 28 to 31 in place. *)
Example int_blanks : py_int (JStr (" 12" +:+ String "160" "")) = Ok 12.
  Proof. reflexivity. Qed.

Example int_separator :
    py_int (JStr (String "028" "7")) =
    Raise (Exc ValueError "invalid literal for int() with base 10: '\x1c7'").
  Proof. reflexivity. Qed.

Example split_separator : Py.split ("1" +:+ String "028" "2") = ["1"; "2"].
  Proof. reflexivity. Qed.

  (** A character above 127 is escaped by its code point in [json.dumps]
      and kept by [repr] when it is printable. *)
Example dumps_e_acute :
    json_dumps (JStr (String "233" "")) = String dquote ("\u00e9" +:+ String dquote "").
  Proof. reflexivity. Qed.

Example repr_e_acute :
    py_repr (JStr (String "233" "")) = String squote (String "233" (String squote "")).
  Proof. reflexivity. Qed.

Example repr_no_break_space :
    py_repr (JStr (String "160" "")) = String squote ("\xa0" +:+ String squote "").
  Proof. reflexivity. Qed.
End PyExamples.

Section OsExamples.
Import Py Os Scenario.
Local Open Scope string_scope.

Example unpack_nested :
    unpack [] [TFile "a/b/main.tf" "x"]
    = (Ok tt, [("/var/tmp/cv0/a/b/main.tf", File (RawData "x"));
               ("/var/tmp/cv0/a/b", Dir); ("/var/tmp/cv0/a", Dir); ("/var/tmp/cv0", Dir)]).
  Proof. vm_compute. reflexivity. Qed.

  (** A regular file in the way of a directory is not replaced. *)
Example unpack_under_a_file :
    unpack [("/var/tmp/cv0/a", File (RawData "x"))] [TFile "a/b" "1"]
    = (Raise (Exc NotADirectoryError "[Errno 20] Not a directory: '/var/tmp/cv0/a/b'"),
       [("/var/tmp/cv0/a", File (RawData "x")); ("/var/tmp/cv0", Dir)]).
  Proof. vm_compute. reflexivity. Qed.

  (** A member name may lead out of the directory. *)
Example unpack_outside :
    unpack [] [TFile "../x" "1"]
    = (Ok tt, [("/var/tmp/cv0", Dir); ("/var/tmp/x", File (RawData "1"))]).
  Proof. vm_compute. reflexivity. Qed.

  (** The one error of [extractall] that the script catches: [makedirs]
      meets the directory it has just made. *)
Example unpack_through_a_new_directory :
    unpack [] [TFile "q/../b" "1"]
    = (Raise (Exc FileExistsError "[Errno 17] File exists: '/var/tmp/cv0/q/..'"),
       [("/var/tmp/cv0/q", Dir); ("/var/tmp/cv0", Dir)]).
  Proof. vm_compute. reflexivity. Qed.

Example unpack_directory_over_file :
    unpack [("/var/tmp/cv0/a", File (RawData "x"))] [TDir "a"]
    = (Ok tt, [("/var/tmp/cv0/a", File (RawData "x")); ("/var/tmp/cv0", Dir)]).
  Proof. vm_compute. reflexivity. Qed.
End OsExamples.

Section DifflibExamples.
Import Difflib.
Local Open Scope string_scope.

  (** One line replaced, no context. *)
Example diff_one_line :
    unified_diff ["a=0"; "foo=1"; "z=9"] ["a=0"; "foo=2"; "z=9"]
                 "old" "new" "" "" 0 ""
    = Some ["--- old"; "+++ new"; "@@ -2 +2 @@"; "-foo=1"; "+foo=2"].
  Proof. vm_compute. reflexivity. Qed.

Example diff_same :
    unified_diff ["a=0"; "foo=1"] ["a=0"; "foo=1"] "old" "new" "" "" 0 "" = Some [].
  Proof. vm_compute. reflexivity. Qed.

Example diff_insert :
    unified_diff ["a"; "b"] ["a"; "x"; "y"; "b"; "c"] "f" "t" "" "" 0 ""
    = Some ["--- f"; "+++ t"; "@@ -1,0 +2,2 @@"; "+x"; "+y"; "@@ -2,0 +5 @@"; "+c"].
  Proof. vm_compute. reflexivity. Qed.

Example diff_chars :
    unified_diff (Py.chars "abcabba") (Py.chars "cbabac") "f" "t" "" "" 1 ""
    = Some ["--- f"; "+++ t"; "@@ -1,7 +1,6 @@"; "+c"; "+b"; " a"; " b"; "+a";
            " c"; "-a"; "-b"; "-b"; "-a"].
  Proof. vm_compute. reflexivity. Qed.

Example diff_context :
    unified_diff (Py.chars "private Thread currentThread;")
                 (Py.chars "private volatile Thread currentThread;") "f" "t" "" "" 2 ""
    = Some ["--- f"; "+++ t"; "@@ -5,4 +5,13 @@"; " a"; " t"; "+e"; "+ "; "+v";
            "+o"; "+l"; "+a"; "+t"; "+i"; "+l"; " e"; "  "].
  Proof. vm_compute. reflexivity. Qed.
End DifflibExamples.

(** ** Laws of the effect monad *)

Section Replies.
Import Py Os Probe Probe.bcolors Facts.
Context {A : Type}.

Lemma reply_eta (r : reply A) : Reply (res r) (st r) (out r) = r.
  Proof. by destruct r. Qed.

Lemma prepend_nil (r : reply A) : prepend [] r = r.
  Proof. by destruct r. Qed.

Lemma prepend_prepend evs evs' (r : reply A) :
    prepend evs (prepend evs' r) = prepend (evs ++ evs') r.
  Proof. unfold prepend; simpl. by rewrite app_assoc. Qed.

End Replies.

Section MonadLaws.
Import Py Os Probe Probe.bcolors Facts.
Context {A B : Type}.
Implicit Types (m : M A) (f : A → M B) (w : world).

Lemma run_bind m f w :
    (m ≫= f) w =
    match res (m w) with
    | Ok a => prepend (out (m w)) (f a (st (m w)))
    | Raise e => Reply (Raise e) (st (m w)) (out (m w))
    end.
  Proof. reflexivity. Qed.

Lemma run_bind_ok m f w a w' evs :
    m w = Reply (Ok a) w' evs → (m ≫= f) w = prepend evs (f a w').
  Proof. intros H. rewrite run_bind, H. reflexivity. Qed.

Lemma run_bind_raise m f w e w' evs :
    m w = Reply (Raise e) w' evs → (m ≫= f) w = Reply (Raise e) w' evs.
  Proof. intros H. rewrite run_bind, H. reflexivity. Qed.

Lemma run_ret (a : A) f w : (mret a ≫= f) w = f a w.
  Proof. rewrite run_bind. simpl. apply prepend_nil. Qed.

Lemma run_lift_ok (a : A) f w : (lift (Ok a) ≫= f) w = f a w.
  Proof. rewrite run_bind. simpl. apply prepend_nil. Qed.

Lemma run_lift_raise e f w :
    (lift (Raise e) ≫= f) w = Reply (Raise e) w [].
  Proof. reflexivity. Qed.

Lemma run_raise e f w : (raise e ≫= f) w = Reply (Raise e) w [].
  Proof. reflexivity. Qed.

Lemma run_exit c f w : (exit c ≫= f) w = Reply (Raise (SystemExit c)) w [].
  Proof. reflexivity. Qed.
End MonadLaws.

Section MonadLawsUnit.
Import Py Os Probe Probe.bcolors Facts.
Context {B : Type}.

Lemma run_print text (f : unit → M B) w :
    (print text ≫= f) w = prepend [Print text] (f tt w).
  Proof. reflexivity. Qed.

Lemma run_emit e (f : unit → M B) w :
    (emit e ≫= f) w = prepend [e] (f tt w).
  Proof. reflexivity. Qed.
End MonadLawsUnit.

Section TryExcept.
Import Py Os Probe Probe.bcolors Facts.
Context {A : Type}.
Implicit Types (m : M A) (w : world).

Lemma run_try_ok m h k w a w' evs :
    m w = Reply (Ok a) w' evs → try_except m h k w = Reply (Ok a) w' evs.
  Proof. intros H. unfold try_except. by rewrite H. Qed.

Lemma run_try_caught m h k w e w' evs :
    m w = Reply (Raise e) w' evs → catches h e = true →
    try_except m h k w = prepend evs (k e w').
  Proof. intros H Hc. unfold try_except. rewrite H. simpl. by rewrite Hc. Qed.

Lemma run_try_pass m h k w e w' evs :
    m w = Reply (Raise e) w' evs → catches h e = false →
    try_except m h k w = Reply (Raise e) w' evs.
  Proof. intros H Hc. unfold try_except. rewrite H. simpl. by rewrite Hc. Qed.

End TryExcept.

(** ** Facts about the Python fragment *)

Section PyFacts.
Import Py.

Lemma rbind_raise_foldl (e : pyexc) (p : list subscript) :
    foldl (λ r s, rbind r (λ v, getitem v s)) (Raise e) p = Raise e.
  Proof. induction p as [|s p IH]; simpl; auto. Qed.

Lemma subscripts_nil x : subscripts x [] = Ok x.
  Proof. reflexivity. Qed.

Lemma subscripts_cons x s p :
    subscripts x (s :: p) = rbind (getitem x s) (λ v, subscripts v p).
  Proof.
    unfold subscripts. simpl. destruct (getitem x s); simpl; auto.
    apply rbind_raise_foldl.
  Qed.

Lemma seq_get_0 {A} what (a : A) l : seq_get what (a :: l) 0 = Ok a.
  Proof.
    unfold seq_get. simpl length.
    replace (0 <? 0) with false by reflexivity. cbn [orb].
    destruct (Z.leb_spec (Z.of_nat (S (length l))) 0); [lia | reflexivity].
  Qed.

Lemma seq_get_1 {A} what (a b : A) l : seq_get what (a :: b :: l) 1 = Ok b.
  Proof.
    unfold seq_get. simpl length.
    replace (1 <? 0) with false by reflexivity. cbn [orb].
    destruct (Z.leb_spec (Z.of_nat (S (S (length l)))) 1); [lia | reflexivity].
  Qed.

Lemma dict_get_len {V} (kvs : list (string * V)) k v :
    dict_get kvs k = Some v → (1 ≤ dict_len kvs)%nat.
  Proof.
    unfold dict_len. destruct kvs as [|[k' v'] r]; [discriminate|]. intros _.
    assert (k' ∈ remove_dups (((k', v') :: r).*1)) as Hin.
    { apply elem_of_remove_dups. simpl. left. }
    destruct (remove_dups _); [by apply elem_of_nil in Hin | simpl; lia].
  Qed.

  (** A value with a ["data"] member is a dict, and [len] counts at least
      that key. *)
Lemma len_of_keyed x v :
    getitem x (K "data") = Ok v → ∃ n, py_len x = Ok n ∧ 1 ≤ n.
  Proof.
    destruct x; simpl; try discriminate.
    destruct (dict_get kvs "data") eqn:Hd; [|discriminate]. intros _.
    eexists; split; [reflexivity|]. apply dict_get_len in Hd. lia.
  Qed.

Lemma py_len_raise x e : py_len x = Raise e → catches HKeyError e = false.
  Proof. destruct x; simpl; intros H; inversion H; reflexivity. Qed.

Lemma py_eq_str s : py_eq (JStr s) (JStr s) = true.
  Proof. simpl. apply String.eqb_refl. Qed.
End PyFacts.

(** ** Facts about the system calls and [callTFE] *)

Section CallFacts.
Import Py Os Probe Probe.bcolors Facts.

Lemma requests_get_resp url auth w b :
    net w url auth = Resp b → requests_get url auth w = Reply (Ok b) w [HttpGet url auth].
  Proof. intros H. unfold requests_get. by rewrite H. Qed.

Lemma requests_get_failed url auth w msg :
    net w url auth = Failed msg →
    requests_get url auth w = Reply (Raise (Exc RequestException msg)) w [HttpGet url auth].
  Proof. intros H. unfold requests_get. by rewrite H. Qed.

Lemma callTFE_calling g Q D path w B (f : unit → M B) :
    ((if negb Q && D then
         print (Magenta +:+ "Calling TFE with " +:+ api g path +:+ Endc);;
         print ""
       else mret tt) ≫= f) w = prepend (calling g Q D path) (f tt w).
  Proof.
    unfold calling. destruct (negb Q && D).
    - erewrite run_bind_ok by reflexivity. reflexivity.
    - rewrite run_ret. by rewrite prepend_nil.
  Qed.

Lemma callTFE_fetch g Q D path w j :
    String.eqb path "" = false →
    net w (api g path) (bearer g) = Resp (BodyJson j) →
    callTFE g Q D path "" w =
    Reply (Ok j) w (calling g Q D path ++ [HttpGet (api g path) (bearer g)] ++ dumped D j).
  Proof.
    intros Hp Hn. unfold callTFE. rewrite Hp, run_ret.
    fold (api g path). fold (bearer g).
    rewrite callTFE_calling.
    erewrite run_bind_ok by (apply run_try_ok; by apply requests_get_resp).
    cbn [String.eqb response_json]. rewrite run_lift_ok.
    unfold dumped. destruct D.
    - erewrite run_bind_ok by reflexivity. reflexivity.
    - rewrite run_ret. reflexivity.
  Qed.

Lemma requested_app evs evs' : requested (evs ++ evs') = requested evs ++ requested evs'.
  Proof. unfold requested. apply omap_app. Qed.

Lemma requested_calling g Q D path : requested (calling g Q D path) = [].
  Proof. unfold calling. by destruct (negb Q && D). Qed.

Lemma requested_dumped D j : requested (dumped D j) = [].
  Proof. by destruct D. Qed.

Lemma write_file_ok p d w :
    fs w !! p ≠ Some Dir →
    write_file p d w = Reply (Ok tt) (set_fs w (<[p := File d]> (fs w))) [WriteFile p].
  Proof. intros H. unfold write_file. destruct (fs w !! p) as [[]|]; done. Qed.

Lemma write_file_dir p d w :
    fs w !! p = Some Dir →
    write_file p d w =
    Reply (Raise (oserror IsADirectoryError "21" "Is a directory" p)) w [WriteFile p].
  Proof. intros H. unfold write_file. by rewrite H. Qed.

Lemma callTFE_download g Q D path target w :
    String.eqb path "" = false → String.eqb target "" = false →
    ∃ evs, requested evs = [api g path] ∧
      callTFE g Q D path target w =
      match downloadable g w path target with
      | Some d => Reply (Ok (JStr "OK")) (set_fs w (<[target := File d]> (fs w))) evs
      | None => Reply (Raise (SystemExit 1)) w evs
      end.
  Proof.
    intros Hp Ht. unfold callTFE, downloadable. rewrite Hp, run_ret.
    fold (api g path). fold (bearer g). rewrite Ht, callTFE_calling.
    destruct (net w (api g path) (bearer g)) as [[j|d|raw]|msg] eqn:Hn;
      [ | destruct (fs w !! target) as [[|]|] eqn:Hf | | ];
      try erewrite run_bind_ok by (apply run_try_ok; by apply requests_get_resp);
      cbn [zlib_decompress];
      (eexists; split;
       [| first
            [ erewrite run_bind_ok;
                [reflexivity
                | apply run_try_ok; rewrite run_lift_ok; apply write_file_ok; by rewrite Hf ]
            | erewrite run_bind_raise;
                [reflexivity
                | erewrite run_try_caught;
                    [ rewrite !run_print; reflexivity
                    | first [ rewrite run_lift_raise; reflexivity
                            | rewrite run_lift_ok; by apply write_file_dir
                            | by apply requests_get_failed ]
                    | reflexivity ] ] ] ]);
      rewrite !requested_app, requested_calling; reflexivity.
  Qed.
End CallFacts.

(** ** What every step of the report preserves *)

(** The combinators keep any property of the shape of [Keeps]; so do the
    functions of the script, as soon as the system calls they make do. *)
Section Closure.
Import Py Os Probe Probe.bcolors Facts.
Variable R : world → world → Prop.
Variable E : list event → Prop.
  Hypothesis R_refl : ∀ w, R w w.
  Hypothesis R_trans : ∀ a b c, R a b → R b c → R a c.
  Hypothesis E_nil : E [].
  Hypothesis E_app : ∀ x y, E x → E y → E (x ++ y).
  Hypothesis E_print : ∀ t, E [Print t].

Lemma Keeps_ret {A} (a : A) : Keeps R E (mret a).
  Proof. intros w. split; simpl; auto. Qed.

Lemma Keeps_lift {A} (r : result A) : Keeps R E (lift r).
  Proof. intros w. split; simpl; auto. Qed.

Lemma Keeps_raise {A} e : Keeps R E (raise (A := A) e).
  Proof. intros w. split; simpl; auto. Qed.

Lemma Keeps_exit {A} c : Keeps R E (exit (A := A) c).
  Proof. apply Keeps_raise. Qed.

Lemma Keeps_print t : Keeps R E (print t).
  Proof. intros w. split; simpl; auto. Qed.

Lemma Keeps_bind {A B} (m : M A) (f : A → M B) :
    Keeps R E m → (∀ a, Keeps R E (f a)) → Keeps R E (m ≫= f).
  Proof.
    intros Hm Hf w. rewrite run_bind. destruct (Hm w) as [HR HE].
    destruct (res (m w)) as [a|e]; simpl; [|auto].
    destruct (Hf a (st (m w))) as [HR' HE']. split; eauto.
  Qed.

Lemma Keeps_try {A} (m : M A) h k :
    Keeps R E m → (∀ e, Keeps R E (k e)) → Keeps R E (try_except m h k).
  Proof.
    intros Hm Hk w. unfold try_except. destruct (Hm w) as [HR HE].
    destruct (res (m w)) as [a|e]; [auto|].
    destruct (catches h e); [|auto].
    destruct (Hk e (st (m w))) as [HR' HE']. split; simpl; eauto.
  Qed.

Lemma Keeps_for_each {A} (l : list A) (f : A → M unit) :
    (∀ a, Keeps R E (f a)) → Keeps R E (for_each l f).
  Proof.
    intros Hf. induction l as [|a l IH]; simpl.
    - apply Keeps_ret.
    - apply Keeps_bind; auto.
  Qed.

Lemma Keeps_fatal {A} text error : Keeps R E (fatal (A := A) text error).
  Proof.
    unfold fatal. repeat (apply Keeps_bind; [apply Keeps_print | intros _]).
    apply Keeps_exit.
  Qed.

Ltac keeps_known := fail.
Ltac keeps_step :=
  lazymatch goal with
  | |- Keeps _ _ (mret _) => apply Keeps_ret
  | |- Keeps _ _ (lift _) => apply Keeps_lift
  | |- Keeps _ _ (exit _) => apply Keeps_exit
  | |- Keeps _ _ (raise _) => apply Keeps_raise
  | |- Keeps _ _ (print _) => apply Keeps_print
  | |- Keeps _ _ (fatal _ _) => apply Keeps_fatal
  | |- Keeps _ _ (_ ≫= _) => apply Keeps_bind
  | |- Keeps _ _ (try_except _ _ _) => apply Keeps_try
  | |- Keeps _ _ (for_each _ _) => apply Keeps_for_each
  | |- Keeps _ _ (if ?b then _ else _) => destruct b
  | |- Keeps _ _ (match ?x with _ => _ end) => destruct x
  | |- ∀ _, _ => intro
  | |- _ => solve [ keeps_known | match goal with H : _ |- _ => apply H end ]
  end.
Ltac keeps := repeat keeps_step.

  Hypothesis K_open : ∀ p, Keeps R E (tarfile_open p).
  Hypothesis K_extract0 : ∀ ms, Keeps R E (extractall ms cv0tgzDir).
  Hypothesis K_extract1 : ∀ ms, Keeps R E (extractall ms cv1tgzDir).
  Hypothesis K_remove0 : Keeps R E (os_remove cv0tgzPath).
  Hypothesis K_remove1 : Keeps R E (os_remove cv1tgzPath).

Variable g : globals.

Lemma Keeps_drawLine : Keeps R E (drawLine g).
  Proof. unfold drawLine. keeps. Qed.

Lemma Keeps_pickVersions runBlob l : Keeps R E (pickVersions runBlob l).
  Proof. unfold pickVersions. keeps. Qed.

Lemma Keeps_extractVersions : Keeps R E extractVersions.
  Proof.
    unfold extractVersions. keeps. Qed.

Lemma Keeps_removeArchives : Keeps R E removeArchives.
  Proof.
    unfold removeArchives. keeps. Qed.

Lemma Keeps_diffDirs : Keeps R E diffDirs.
  Proof.
    unfold diffDirs. keeps. Qed.

Lemma Keeps_run_attr runBlob label colour path endc mc missing :
    Keeps R E (run_attr runBlob label colour path endc mc missing).
  Proof.
    unfold run_attr. keeps. Qed.

Lemma Keeps_runDetails runBlob : Keeps R E (runDetails runBlob).
  Proof.
    unfold runDetails, run_stamp. 
    repeat (apply Keeps_bind; [apply Keeps_run_attr | intros _]).
    keeps. Qed.

Lemma Keeps_describeRun runBlob : Keeps R E (describeRun runBlob).
  Proof.
    unfold describeRun. keeps. Qed.

Ltac keeps_known ::=
    first [ apply Keeps_drawLine | apply Keeps_pickVersions | apply Keeps_extractVersions
          | apply Keeps_removeArchives | apply Keeps_diffDirs | apply Keeps_runDetails
          | apply Keeps_describeRun ].

  Hypothesis K_get : ∀ path, Keeps R E (requests_get (api g path) (bearer g)).
  Hypothesis K_write0 : ∀ d, Keeps R E (write_file cv0tgzPath d).
  Hypothesis K_write1 : ∀ d, Keeps R E (write_file cv1tgzPath d).

Lemma Keeps_callTFE_fetch Q D path : Keeps R E (callTFE g Q D path "").
  Proof. unfold callTFE. cbn [String.eqb]. keeps. Qed.

Lemma Keeps_callTFE_cv0 Q D path : Keeps R E (callTFE g Q D path cv0tgzPath).
  Proof. unfold callTFE. cbn [String.eqb cv0tgzPath]. keeps. Qed.

Lemma Keeps_callTFE_cv1 Q D path : Keeps R E (callTFE g Q D path cv1tgzPath).
  Proof. unfold callTFE. cbn [String.eqb cv1tgzPath]. keeps. Qed.

Ltac keeps_known ::=
    first [ apply Keeps_drawLine | apply Keeps_pickVersions | apply Keeps_extractVersions
          | apply Keeps_removeArchives | apply Keeps_diffDirs | apply Keeps_runDetails
          | apply Keeps_describeRun | apply Keeps_callTFE_fetch | apply Keeps_callTFE_cv0
          | apply Keeps_callTFE_cv1 ].

Lemma Keeps_listVersions Q D ws runBlob l : Keeps R E (listVersions g Q D ws runBlob l).
  Proof. unfold listVersions. keeps. Qed.

Lemma Keeps_downloadVersions Q D cv0 cv1 : Keeps R E (downloadVersions g Q D cv0 cv1).
  Proof. unfold downloadVersions. cbv zeta. keeps. Qed.

Lemma Keeps_diffVersions Q D runBlob l : Keeps R E (diffVersions g Q D runBlob l).
  Proof.
    unfold diffVersions. apply Keeps_bind; [apply Keeps_pickVersions|].
    intros [cv0 cv1]. apply Keeps_bind; [apply Keeps_downloadVersions|]. keeps.
  Qed.

Lemma Keeps_compareVersions Q D ws runBlob l :
    Keeps R E (compareVersions g Q D ws runBlob l).
  Proof.
    unfold compareVersions. apply Keeps_bind; [apply Keeps_listVersions|]. intros l'.
    apply Keeps_bind; [apply Keeps_lift|]. intros [|]; keeps. apply Keeps_diffVersions.
  Qed.

Lemma Keeps_reportWorkspace Q D key ws l : Keeps R E (reportWorkspace g Q D key ws l).
  Proof.
    unfold reportWorkspace. cbv zeta.
    repeat (apply Keeps_bind; [apply Keeps_print | intros _]).
    apply Keeps_bind; [apply Keeps_callTFE_fetch|]. intros runBlob.
    apply Keeps_bind; [apply Keeps_lift|]. intros n.
    apply Keeps_bind; [|keeps].
    destruct (n =? 0); [keeps|].
    apply Keeps_bind; [apply Keeps_describeRun|]. intros _.
    apply Keeps_bind; [apply Keeps_compareVersions|]. keeps.
  Qed.

Lemma Keeps_reportLoop Q D items : ∀ l, Keeps R E (reportLoop g Q D items l).
  Proof.
    induction items as [|[key ws] items IH]; intros l; simpl.
    - apply Keeps_ret.
    - apply Keeps_bind; [apply Keeps_reportWorkspace | auto].
  Qed.

Lemma Keeps_runReport Q D org : Keeps R E (runReport g Q D org).
  Proof.
    unfold runReport.
    apply Keeps_bind; [keeps|]. intros _.
    apply Keeps_bind; [apply Keeps_callTFE_fetch|]. intros releaseBlob.
    apply Keeps_bind; [apply Keeps_lift|]. intros release.
    apply Keeps_bind; [apply Keeps_print|]. intros _.
    apply Keeps_bind; [apply Keeps_lift|]. intros yearMonth.
    apply Keeps_bind; [keeps|]. intros _.
    apply Keeps_bind; [keeps|]. intros _.
    apply Keeps_bind; [apply Keeps_callTFE_fetch|]. intros workspaceBlob.
    apply Keeps_bind; [apply Keeps_lift|]. intros items.
    apply Keeps_bind; [apply Keeps_lift|]. intros workspaces.
    apply Keeps_bind; [apply Keeps_lift|]. intros ordered.
    apply Keeps_bind; [apply Keeps_reportLoop|]. intros _. keeps.
  Qed.

  Hypothesis K_mkdir0 : Keeps R E (os_mkdir cv0tgzDir).
  Hypothesis K_mkdir1 : Keeps R E (os_mkdir cv1tgzDir).
  Hypothesis K_rmtree0 : Keeps R E (shutil_rmtree cv0tgzDir).
  Hypothesis K_rmtree1 : Keeps R E (shutil_rmtree cv1tgzDir).


End Closure.

(** ** The file system only grows; the tail of the pipeline is offline *)

Section Instances.
Import Py Os Probe Probe.bcolors Facts.

Lemma grows_refl w : grows w w.
  Proof. intros p. split; auto. Qed.

Lemma grows_trans a b c : grows a b → grows b c → grows a c.
  Proof.
    intros Hab Hbc p. destruct (Hab p) as [H1 H2], (Hbc p) as [H3 H4]. split; auto.
  Qed.

Lemma grows_insert w p n :
    fs w !! p ≠ Some Dir ∨ n = Dir → grows w (set_fs w (<[p := n]> (fs w))).
  Proof.
    intros Hp q. simpl. destruct (decide (p = q)) as [->|Hne].
    - rewrite lookup_insert_eq. split; [|eauto].
      intros Hq. destruct Hp as [Hp | ->]; [contradiction | reflexivity].
    - rewrite lookup_insert_ne by done. split; auto.
  Qed.

Lemma grows_delete_archive w p d :
    fs w !! p = Some (File d) → p = cv0tgzPath ∨ p = cv1tgzPath →
    grows w (set_fs w (delete p (fs w))).
  Proof.
    intros Hp Hor q. simpl. destruct (decide (p = q)) as [->|Hne].
    - rewrite lookup_delete_eq. split; [congruence|]. intros _ H0 H1. destruct Hor; contradiction.
    - rewrite lookup_delete_ne by done. split; auto.
  Qed.

Lemma grows_staged w w' : grows w w' → staged w → staged w'.
  Proof. intros H [H0 H1]. split; apply H; assumption. Qed.

Lemma Grows_get url auth : Grows (requests_get url auth).
  Proof.
    intros w. unfold requests_get. destruct (net w url auth); simpl;
      (split; [apply grows_refl | exact Logic.I]).
  Qed.

Lemma Grows_open p : Grows (tarfile_open p).
  Proof.
    intros w. unfold tarfile_open.
    destruct (fs w !! p) as [[|[ms|raw]]|]; simpl; (split; [apply grows_refl | exact Logic.I]).
  Qed.

Lemma Grows_write p d : Grows (write_file p d).
  Proof.
    intros w. unfold write_file.
    destruct (fs w !! p) as [[|d']|] eqn:Hp; simpl; (split; [|exact Logic.I]).
    - apply grows_refl.
    - apply grows_insert. left. congruence.
    - apply grows_insert. left. congruence.
  Qed.

Lemma Grows_remove p : p = cv0tgzPath ∨ p = cv1tgzPath → Grows (os_remove p).
  Proof.
    intros Hor w. unfold os_remove.
    destruct (fs w !! p) as [[|d']|] eqn:Hp; simpl; (split; [|exact Logic.I]).
    - apply grows_refl.
    - by eapply grows_delete_archive.
    - apply grows_refl.
  Qed.

  (** What [resolve] finds at a place is a directory, or what the map holds
      there. *)
Lemma resolve_kind m rcs l k :
    resolve m rcs = inr (l, k) → k = Some Dir ∨ k = m !! path_of l.
  Proof.
    unfold resolve. destruct rcs as [|c rhead]; [intros [= <- <-]; by left|].
    destruct (walk m [] (reverse rhead)) as [e|cur]; [discriminate|].
    destruct (String.eqb c "."); [intros [= <- <-]; by left|].
    destruct (String.eqb c ".."); [intros [= <- <-]; by left|].
    intros [= <- <-]. unfold kind_at. destruct (is_prefix _ _); auto.
  Qed.

Lemma quiet_app (x y : list event) : [] = x → [] = y → [] = x ++ y.
  Proof. by intros <- <-. Qed.

Lemma Quiet_mkdir_at rcs name : Quiet (mkdir_at rcs name).
  Proof.
    intros w. unfold mkdir_at.
    destruct (resolve (fs w) rcs) as [e|[l [n|]]]; cbn [st out];
      (split; [|reflexivity]); [apply grows_refl.. |].
    apply grows_insert. by right.
  Qed.

Lemma Quiet_create_at rcs name data : Quiet (create_at rcs name data).
  Proof.
    intros w. unfold create_at.
    destruct (resolve (fs w) rcs) as [e|[l k]] eqn:Hr; [by split; [apply grows_refl|]|].
    assert (k ≠ Some Dir → grows w (set_fs w (<[path_of l := File data]> (fs w)))) as Hg.
    { intros Hk. apply grows_insert. left.
      destruct (resolve_kind _ _ _ _ Hr) as [->| ->]; done. }
    destruct k as [[|d]|]; cbn [st out]; (split; [|reflexivity]);
      [apply grows_refl | by apply Hg..].
  Qed.

Lemma Quiet_makedirs rps : Quiet (makedirs rps).
  Proof.
    induction rps as [|[tail name] rhead IH].
    - intros w. split; [apply grows_refl | reflexivity].
    - intros w. cbn [makedirs]. destruct (path_exists (fs w) rhead.*1).
      + apply Quiet_mkdir_at.
      + apply (Keeps_bind grows (eq []) grows_trans quiet_app).
        * apply (Keeps_try grows (eq []) grows_trans quiet_app); [exact IH|].
          intros e w'. split; [apply grows_refl | reflexivity].
        * intros _. destruct (String.eqb tail ".").
          -- intros w'. split; [apply grows_refl | reflexivity].
          -- apply Quiet_mkdir_at.
  Qed.

Lemma Quiet_extract_member dir m : Quiet (extract_member dir m).
  Proof.
    unfold extract_member. cbv zeta.
    apply (Keeps_bind grows (eq []) grows_trans quiet_app).
    - destruct (reverse (prefixes _)) as [|p rhead].
      + intros w. split; [apply grows_refl | reflexivity].
      + intros w. destruct (path_exists (fs w) rhead.*1).
        * split; [apply grows_refl | reflexivity].
        * apply Quiet_makedirs.
    - intros _. destruct m as [name data|name]; destruct (String.eqb _ "").
      + intros w. split; [apply grows_refl | reflexivity].
      + apply Quiet_create_at.
      + intros w. split; [apply grows_refl | reflexivity].
      + apply (Keeps_try grows (eq []) grows_trans quiet_app); [apply Quiet_mkdir_at|].
        intros e w'. split; [apply grows_refl | reflexivity].
  Qed.

Lemma Grows_extract_member dir m : Grows (extract_member dir m).
  Proof. intros w. destruct (Quiet_extract_member dir m w). by split. Qed.

Lemma any_trace_app x y : any_trace x → any_trace y → any_trace (x ++ y).
  Proof. done. Qed.

Lemma Grows_extractall ms dir : Grows (extractall ms dir).
  Proof.
    unfold extractall.
    apply (Keeps_bind grows any_trace grows_trans any_trace_app).
    - intros w. simpl. split; [apply grows_refl | exact Logic.I].
    - intros _. apply (Keeps_for_each grows any_trace grows_refl grows_trans Logic.I any_trace_app).
      intros m. apply Grows_extract_member.
  Qed.

  (** The report never removes a directory, nor any path but the two
      archive files. *)
Lemma Grows_runReport g Q D org : Grows (runReport g Q D org).
  Proof.
    apply (Keeps_runReport grows any_trace grows_refl grows_trans Logic.I any_trace_app).
    - intros t. exact Logic.I.
    - apply Grows_open.
    - intros ms. apply Grows_extractall.
    - intros ms. apply Grows_extractall.
    - apply Grows_remove. by left.
    - apply Grows_remove. by right.
    - intros path. apply Grows_get.
    - intros d. apply Grows_write.
    - intros d. apply Grows_write.
  Qed.

Lemma Grows_reportWorkspace g Q D key ws l : Grows (reportWorkspace g Q D key ws l).
  Proof.
    apply (Keeps_reportWorkspace grows any_trace grows_refl grows_trans Logic.I any_trace_app).
    - intros t. exact Logic.I.
    - apply Grows_open.
    - intros ms. apply Grows_extractall.
    - intros ms. apply Grows_extractall.
    - apply Grows_remove. by left.
    - apply Grows_remove. by right.
    - intros path. apply Grows_get.
    - intros d. apply Grows_write.
    - intros d. apply Grows_write.
  Qed.
End Instances.

Section Instances2.
Import Py Os Probe Probe.bcolors Facts.

Lemma no_request_app x y : no_request x → no_request y → no_request (x ++ y).
  Proof. unfold no_request. intros Hx Hy. by rewrite requested_app, Hx, Hy. Qed.

Lemma any_step_trans (a b c : world) : any_step a b → any_step b c → any_step a c.
  Proof. done. Qed.

Lemma Offline_open p : Offline (tarfile_open p).
  Proof.
    intros w. unfold tarfile_open.
    destruct (fs w !! p) as [[|[ms|raw]]|]; simpl; by split.
  Qed.

Lemma Offline_remove p : Offline (os_remove p).
  Proof.
    intros w. unfold os_remove. destruct (fs w !! p) as [[|d']|]; simpl; by split.
  Qed.

Lemma Offline_extract_member dir m : Offline (extract_member dir m).
  Proof.
    intros w. destruct (Quiet_extract_member dir m w) as [_ <-]. by split.
  Qed.

Lemma Offline_extractall ms dir : Offline (extractall ms dir).
  Proof.
    unfold extractall.
    apply (Keeps_bind any_step no_request any_step_trans no_request_app).
    - intros w. by split.
    - intros _.
      apply (Keeps_for_each any_step no_request (λ _, Logic.I) any_step_trans
               eq_refl no_request_app).
      intros m. apply Offline_extract_member.
  Qed.

Lemma Offline_pickVersions runBlob l : Offline (pickVersions runBlob l).
  Proof.
    apply (Keeps_pickVersions any_step no_request (λ _, Logic.I) any_step_trans
             eq_refl no_request_app). done.
  Qed.

  (** Once the archives are on disk, nothing more is asked of the service. *)
Lemma Offline_after_download :
    Offline (extractVersions;; removeArchives;; diffDirs).
  Proof.
    apply (Keeps_bind any_step no_request any_step_trans no_request_app).
    - apply (Keeps_extractVersions any_step no_request (λ _, Logic.I) any_step_trans
               eq_refl no_request_app); try done.
      + apply Offline_open.
      + intros ms. apply Offline_extractall.
      + intros ms. apply Offline_extractall.
    - intros _. apply (Keeps_bind any_step no_request any_step_trans no_request_app).
      + apply (Keeps_removeArchives any_step no_request (λ _, Logic.I) any_step_trans
               eq_refl no_request_app); try done; apply Offline_remove.
      + intros _. apply (Keeps_diffDirs any_step no_request (λ _, Logic.I) any_step_trans
               eq_refl no_request_app). done.
  Qed.

Lemma eq_world_trans (a b c : world) : a = b → b = c → a = c.
  Proof. congruence. Qed.

Lemma Frozen_pickVersions runBlob l : Frozen (pickVersions runBlob l).
  Proof.
    apply (Keeps_pickVersions eq any_trace (λ _, eq_refl) eq_world_trans
             Logic.I any_trace_app). done.
  Qed.

Lemma Frozen_diffDirs : Frozen diffDirs.
  Proof.
    apply (Keeps_diffDirs eq any_trace (λ _, eq_refl) eq_world_trans
             Logic.I any_trace_app). done.
  Qed.
End Instances2.

(** ** Facts about [drawLine] and [handleDirectories] *)

Section StagingFacts.
Import Py Os Probe Probe.bcolors Facts.

Lemma os_mkdir_exists p w :
    is_Some (fs w !! p) →
    os_mkdir p w = Reply (Raise (oserror FileExistsError "17" "File exists" p)) w [Mkdir p].
  Proof. intros [n Hn]. unfold os_mkdir. by rewrite Hn. Qed.

Lemma os_mkdir_fresh p w :
    fs w !! p = None →
    os_mkdir p w = Reply (Ok tt) (set_fs w (<[p := Dir]> (fs w))) [Mkdir p].
  Proof. intros Hn. unfold os_mkdir. by rewrite Hn. Qed.

Lemma drawLine_ok g n w :
    int_of_string (columns g) = Ok n →
    drawLine g w = Reply (Ok tt) w [Print Default; Print (str_mul "#" n); Print ""].
  Proof.
    intros H. unfold drawLine. rewrite run_print, H, run_lift_ok, run_print. reflexivity.
  Qed.

Local Abbreviation create_block g DEBUG dir :=
    (try_except
       ((if DEBUG
         then drawLine g ≫= λ _ : (),
              print (Magenta +:+ "Creating temporary directory: " +:+ dir +:+ Endc)
         else mret ()) ≫= λ _ : (), os_mkdir dir)
       HOSError
       (λ error : pyexc,
          print "" ≫= λ _ : (),
          print (BRed +:+ "handleDirectories ERROR failed to " +:+ "create" +:+ " "
                   +:+ dir +:+ ":" +:+ Endc)
          ≫= λ _ : (), print (exc_text error) ≫= λ _ : (), exit 1)).

Lemma create_preamble g (DEBUG : bool) dir w :
    (DEBUG = true → tty_ok g) →
    ∃ evs, ∀ B (f : unit → M B),
      ((if DEBUG
        then drawLine g ≫= λ _ : (),
             print (Magenta +:+ "Creating temporary directory: " +:+ dir +:+ Endc)
        else mret ()) ≫= f) w = prepend evs (f tt w).
  Proof.
    intros Htty. destruct DEBUG.
    - destruct (Htty eq_refl) as [n Hn].
      eexists. intros B f.
      erewrite run_bind_ok; [reflexivity|].
      erewrite run_bind_ok by (by apply drawLine_ok).
      reflexivity.
    - exists []. intros B f. rewrite run_ret. by rewrite prepend_nil.
  Qed.

Lemma create_block_exists g DEBUG dir w :
    (DEBUG = true → tty_ok g) → is_Some (fs w !! dir) →
    ∃ evs, create_block g DEBUG dir w =
      Reply (Raise (SystemExit 1)) w
        (evs ++ [Mkdir dir; Print ""; Print (failed_to "create" dir);
                 Print (exc_text (oserror FileExistsError "17" "File exists" dir))]).
  Proof.
    intros Htty Hd. destruct (create_preamble g DEBUG dir w Htty) as [evs Hevs].
    exists evs.
    erewrite run_try_caught; [| rewrite Hevs, os_mkdir_exists by done; reflexivity | reflexivity].
    rewrite !run_print. unfold exit, raise, prepend. simpl. by rewrite <- app_assoc.
  Qed.

Lemma create_block_fresh g DEBUG dir w :
    (DEBUG = true → tty_ok g) → fs w !! dir = None →
    ∃ evs, create_block g DEBUG dir w =
      Reply (Ok tt) (set_fs w (<[dir := Dir]> (fs w))) (evs ++ [Mkdir dir]).
  Proof.
    intros Htty Hd. destruct (create_preamble g DEBUG dir w Htty) as [evs Hevs].
    exists evs.
    erewrite run_try_ok; [reflexivity|]. rewrite Hevs, os_mkdir_fresh by done. reflexivity.
  Qed.

  (** On a clean file system, [create] makes both directories and nothing
      else. *)
Lemma prepare_fresh g DEBUG w :
    (DEBUG = true → tty_ok g) → unstaged w →
    ∃ evs, handleDirectories g DEBUG "create" w =
      Reply (Ok tt) (set_fs w (<[cv1tgzDir := Dir]> (<[cv0tgzDir := Dir]> (fs w)))) evs.
  Proof.
    intros Htty [H0 H1]. unfold handleDirectories.
    cbn [String.eqb Ascii.eqb Bool.eqb for_each].
    destruct (create_block_fresh g DEBUG cv0tgzDir w Htty H0) as [evs0 Hevs0].
    erewrite run_bind_ok by exact Hevs0.
    set (w1 := set_fs w _).
    assert (Hw1 : fs w1 !! cv1tgzDir = None).
    { unfold w1. simpl. by rewrite lookup_insert_ne. }
    destruct (create_block_fresh g DEBUG cv1tgzDir w1 Htty Hw1) as [evs1 Hevs1].
    erewrite run_bind_ok by exact Hevs1.
    eexists. reflexivity.
  Qed.

Lemma prepare_exists g DEBUG w :
    (DEBUG = true → tty_ok g) →
    is_Some (fs w !! cv0tgzDir) ∨ is_Some (fs w !! cv1tgzDir) →
    ∃ dir, (dir = cv0tgzDir ∨ dir = cv1tgzDir) ∧ is_Some (fs w !! dir) ∧
      res (handleDirectories g DEBUG "create" w) = Raise (SystemExit 1) ∧
      Print (failed_to "create" dir) ∈ out (handleDirectories g DEBUG "create" w) ∧
      fs (st (handleDirectories g DEBUG "create" w)) !! dir = fs w !! dir.
  Proof.
    intros Htty Hex. unfold handleDirectories.
    cbn [String.eqb Ascii.eqb Bool.eqb for_each].
    destruct (fs w !! cv0tgzDir) as [n0|] eqn:H0.
    - exists cv0tgzDir.
      destruct (create_block_exists g DEBUG cv0tgzDir w Htty) as [evs Hevs]; [by rewrite H0|].
      erewrite run_bind_raise by exact Hevs. simpl.
      split_and!; eauto.
      rewrite elem_of_app. right. rewrite !elem_of_cons. auto.
    - destruct Hex as [[? ?]|H1]; [done|].
      exists cv1tgzDir.
      destruct (create_block_fresh g DEBUG cv0tgzDir w Htty H0) as [evs0 Hevs0].
      erewrite run_bind_ok by exact Hevs0.
      set (w1 := set_fs w _).
      assert (Hw1 : fs w1 !! cv1tgzDir = fs w !! cv1tgzDir).
      { unfold w1. simpl. by rewrite lookup_insert_ne. }
      destruct (create_block_exists g DEBUG cv1tgzDir w1 Htty) as [evs Hevs]; [by rewrite Hw1|].
      erewrite run_bind_raise by exact Hevs. simpl.
      split_and!; eauto.
      rewrite !elem_of_app. right. right. rewrite !elem_of_cons. auto.
  Qed.
End StagingFacts.
(** ** Facts about the listing and the choice of versions *)

Section VersionFacts.
Import Py Os Probe Probe.bcolors Facts.

Lemma requested_fetched g Q D path j : requested (fetched g Q D path j) = [api g path].
  Proof.
    unfold fetched. rewrite !requested_app, requested_calling, requested_dumped. reflexivity.
  Qed.

Lemma run_bind_res_raise {A B} (m : M A) (f : A → M B) w e :
    res (m w) = Raise e → (m ≫= f) w = Reply (Raise e) (st (m w)) (out (m w)).
  Proof. intros H. rewrite run_bind, H. reflexivity. Qed.

Lemma run_bind_res_ok {A B} (m : M A) (f : A → M B) w a :
    res (m w) = Ok a → (m ≫= f) w = prepend (out (m w)) (f a (st (m w))).
  Proof. intros H. rewrite run_bind, H. reflexivity. Qed.

Lemma listVersions_fetched g Q D ws runBlob l w s blob :
    subscripts runBlob cv_id_path = Ok (JStr s) → String.prefix "cv-" s = true →
    net w (api g (versions_path ws)) (bearer g) = Resp (BodyJson blob) →
    listVersions g Q D ws runBlob l w =
    match py_len blob with
    | Ok n =>
        if n =? 0 then
          Reply (Raise (SystemExit 1)) w
                (fetched g Q D (versions_path ws) blob ++ [Print (empty_list_line (JStr s))])
        else if n =? 1 then
          Reply (Ok {| cvListBlob := Some blob; firstCV := Some true;
                       multipleCV := multipleCV l |}) w
                (fetched g Q D (versions_path ws) blob)
        else
          Reply (Ok {| cvListBlob := Some blob; firstCV := firstCV l;
                       multipleCV := Some true |}) w
                (fetched g Q D (versions_path ws) blob)
    | Raise e => Reply (Raise e) w (fetched g Q D (versions_path ws) blob)
    end.
  Proof.
    intros Hcv Hpre Hnet.
    unfold listVersions. fold (versions_path ws).
    assert (callTFE g Q D (versions_path ws) "" w
            = Reply (Ok blob) w (fetched g Q D (versions_path ws) blob)) as Hcall
      by (by apply callTFE_fetch).
    destruct (py_len blob) as [n|e] eqn:Hlen.
    - destruct (n =? 0) eqn:H0; [|destruct (n =? 1) eqn:H1].
      + erewrite run_try_pass; [reflexivity| |reflexivity].
        rewrite Hcv, run_lift_ok. cbn [startswith]. rewrite Hpre, run_lift_ok.
        erewrite run_bind_ok by exact Hcall.
        rewrite Hlen, run_lift_ok, H0, run_lift_ok, run_print.
        unfold prepend, exit, raise; simpl. reflexivity.
      + erewrite run_try_ok; [reflexivity|].
        rewrite Hcv, run_lift_ok. cbn [startswith]. rewrite Hpre, run_lift_ok.
        erewrite run_bind_ok by exact Hcall.
        rewrite Hlen, run_lift_ok, H0, H1.
        unfold prepend; simpl. rewrite app_nil_r. reflexivity.
      + erewrite run_try_ok; [reflexivity|].
        rewrite Hcv, run_lift_ok. cbn [startswith]. rewrite Hpre, run_lift_ok.
        erewrite run_bind_ok by exact Hcall.
        rewrite Hlen, run_lift_ok, H0, H1.
        unfold prepend; simpl. rewrite app_nil_r. reflexivity.
    - erewrite run_try_pass; [reflexivity| |by eapply py_len_raise].
      rewrite Hcv, run_lift_ok. cbn [startswith]. rewrite Hpre, run_lift_ok.
      erewrite run_bind_ok by exact Hcall.
      rewrite Hlen, run_lift_raise.
      unfold prepend; simpl. rewrite app_nil_r. reflexivity.
  Qed.

  (** [blob["data"][i]...] once [blob["data"]] is known to be a list. *)
Lemma data_path blob items i p :
    getitem blob (K "data") = Ok (JArr items) →
    subscripts blob (K "data" :: I i :: p)
    = rbind (seq_get "list" items i) (λ v, subscripts v p).
  Proof.
    intros H. rewrite subscripts_cons, H. cbn [rbind]. rewrite subscripts_cons. reflexivity.
  Qed.

Lemma seq_get_nil {A} what i :
    seq_get (A := A) what [] i = Raise (Exc IndexError (what +:+ " index out of range")).
  Proof.
    unfold seq_get. simpl length. change (Z.of_nat 0) with 0.
    destruct (i <? 0) eqn:Hi.
    - replace ((i + 0 <? 0) || (0 <=? i + 0)) with true; [reflexivity|].
      symmetry. apply orb_true_iff. left. apply Z.ltb_lt. apply Z.ltb_lt in Hi. lia.
    - replace ((i <? 0) || (0 <=? i)) with true; [reflexivity|].
      symmetry. apply orb_true_iff. right. apply Z.leb_le. apply Z.ltb_ge in Hi. lia.
  Qed.

Lemma seq_get_past {A} what (a : A) :
    seq_get what [a] 1 = Raise (Exc IndexError (what +:+ " index out of range")).
  Proof. reflexivity. Qed.

Lemma pickVersions_frozen runBlob l w : st (pickVersions runBlob l w) = w.
  Proof. symmetry. apply (Frozen_pickVersions runBlob l w). Qed.

Lemma pickVersions_offline runBlob l w : requested (out (pickVersions runBlob l w)) = [].
  Proof. apply (Offline_pickVersions runBlob l w). Qed.

  (** With no entry in the list, the first subscript fails. *)
Lemma pickVersions_none runBlob l w cv blob :
    subscripts runBlob cv_id_path = Ok cv →
    cvListBlob l = Some blob →
    getitem blob (K "data") = Ok (JArr []) →
    pickVersions runBlob l w = Reply (Raise (Exc IndexError "list index out of range")) w [].
  Proof.
    intros Hcv Hl Hdata. unfold pickVersions.
    rewrite Hcv, run_lift_ok, Hl. cbn [read_local]. rewrite run_lift_ok.
    rewrite !(data_path _ _ _ _ Hdata), !seq_get_nil. reflexivity.
  Qed.

  (** With one entry, position 1 is out of range: every path through
      [pickVersions] ends in an exception. *)
Lemma pickVersions_single runBlob l w cv blob entry :
    subscripts runBlob cv_id_path = Ok cv →
    cvListBlob l = Some blob →
    getitem blob (K "data") = Ok (JArr [entry]) →
    faults (pickVersions runBlob l w).
  Proof.
    intros Hcv Hl Hdata. unfold pickVersions, faults.
    rewrite Hcv, run_lift_ok, Hl. cbn [read_local]. rewrite run_lift_ok.
    rewrite !(data_path _ _ _ _ Hdata), !seq_get_0, !seq_get_past. cbn [rbind].
    destruct (subscripts entry [K "id"]) as [head|e] eqn:Hhead;
      [rewrite run_lift_ok | rewrite run_lift_raise; eauto].
    destruct (py_ne cv head).
    { erewrite run_bind_raise by (rewrite run_print; reflexivity). eauto. }
    rewrite run_ret, run_lift_ok.
    destruct (subscripts entry [K "links"; K "download"]) as [d|e] eqn:Hd;
      [rewrite run_lift_ok | rewrite run_lift_raise; eauto].
    eexists. reflexivity.
  Qed.
End VersionFacts.

(** ** Facts about the archives *)

Section ArchiveFacts.
Import Py Os Probe Probe.bcolors Facts.

Lemma bind_ok_inv {A B} (m : M A) (f : A → M B) w b :
    res ((m ≫= f) w) = Ok b →
    ∃ a, res (m w) = Ok a ∧ res (f a (st (m w))) = Ok b
         ∧ (m ≫= f) w = prepend (out (m w)) (f a (st (m w))).
  Proof.
    rewrite run_bind. destruct (res (m w)) as [a|e] eqn:Hm; [|discriminate].
    intros H. exists a. auto.
  Qed.

Lemma try_fatal_ok_inv {A} (m : M A) h text w a :
    res (try_except m h (fatal text) w) = Ok a →
    res (m w) = Ok a ∧ try_except m h (fatal text) w = m w.
  Proof.
    unfold try_except. cbv zeta. destruct (res (m w)) as [a'|e] eqn:Hm.
    - intros H. split; [congruence | reflexivity].
    - destruct (catches h e); [discriminate | rewrite Hm; discriminate].
  Qed.

Lemma tarfile_open_silent p w : out (tarfile_open p w) = [] ∧ st (tarfile_open p w) = w.
  Proof. unfold tarfile_open. by destruct (fs w !! p) as [[|[ms|raw]]|]. Qed.

Lemma extract_members_silent dir ms : ∀ w, out (for_each ms (extract_member dir) w) = [].
  Proof.
    induction ms as [|m ms IH]; intros w; [reflexivity|].
    cbn [for_each]. rewrite run_bind.
    assert (out (extract_member dir m w) = []) as Hm
      by (symmetry; apply (Quiet_extract_member dir m w)).
    destruct (res (extract_member dir m w)); simpl; rewrite Hm; [apply IH | reflexivity].
  Qed.

Lemma extractall_trace ms dir w : out (extractall ms dir w) = [ExtractAll dir].
  Proof.
    unfold extractall. rewrite run_emit. simpl. by rewrite extract_members_silent.
  Qed.

  (** When both archives unpack, the trace is the heading and the two
      extractions. *)
Lemma extractVersions_trace w :
    res (extractVersions w) = Ok tt →
    out (extractVersions w)
    = [Print (Green +:+ "config." +:+ BCyan +:+ "Configuration Changes:" +:+ Endc);
       ExtractAll cv0tgzDir; ExtractAll cv1tgzDir].
  Proof.
    unfold extractVersions. rewrite run_print. cbn [res out prepend]. intros H.
    apply bind_ok_inv in H as (ms0 & H0 & H & E0).
    apply try_fatal_ok_inv in H0 as [H0 T0]. rewrite T0 in *.
    apply bind_ok_inv in H as (ms1 & H1 & H & E1).
    apply try_fatal_ok_inv in H1 as [H1 T1]. rewrite T1 in *.
    apply bind_ok_inv in H as ([] & H2 & H & E2).
    apply try_fatal_ok_inv in H2 as [H2 T2]. rewrite T2 in *.
    apply try_fatal_ok_inv in H as [H T3].
    rewrite E0, E1, E2, T3. cbn [out prepend].
    rewrite !extractall_trace.
    rewrite (proj1 (tarfile_open_silent _ _)), (proj1 (tarfile_open_silent _ _)).
    reflexivity.
  Qed.

Lemma diff_of_names :
    Difflib.unified_diff (chars cv0tgzDir) (chars cv1tgzDir) cv0tgzDir cv1tgzDir "" "" 0 ""
    = Some name_diff.
  Proof. vm_compute. reflexivity. Qed.

Lemma diffDirs_reply w : diffDirs w = Reply (Ok tt) w (map Print name_diff).
  Proof. unfold diffDirs. rewrite diff_of_names. reflexivity. Qed.

  (** [removeArchives] either removes both files or ends in [exit(1)]. *)
Lemma removeArchives_cases w :
    match fs w !! cv0tgzPath, fs w !! cv1tgzPath with
    | Some (File _), Some (File _) =>
        removeArchives w =
        Reply (Ok tt) (set_fs w (delete cv1tgzPath (delete cv0tgzPath (fs w))))
              [Remove cv0tgzPath; Remove cv1tgzPath]
    | _, _ => res (removeArchives w) = Raise (SystemExit 1)
    end.
  Proof.
    unfold removeArchives.
    destruct (fs w !! cv0tgzPath) as [[|d0]|] eqn:H0.
    - erewrite run_try_caught;
        [reflexivity
        | erewrite run_bind_raise; [reflexivity|]; unfold os_remove; rewrite H0; reflexivity
        | reflexivity].
    - assert (os_remove cv0tgzPath w
              = Reply (Ok tt) (set_fs w (delete cv0tgzPath (fs w))) [Remove cv0tgzPath]) as Hr
        by (unfold os_remove; by rewrite H0).
      assert (fs (set_fs w (delete cv0tgzPath (fs w))) !! cv1tgzPath = fs w !! cv1tgzPath)
        as H1' by (simpl; by rewrite lookup_delete_ne).
      destruct (fs w !! cv1tgzPath) as [[|d1]|] eqn:H1.
      + erewrite run_try_caught;
          [reflexivity
          | erewrite run_bind_ok by exact Hr; unfold os_remove; rewrite H1'; reflexivity
          | reflexivity].
      + erewrite run_try_ok; [reflexivity|].
        erewrite run_bind_ok by exact Hr. unfold os_remove. rewrite H1'. reflexivity.
      + erewrite run_try_caught;
          [reflexivity
          | erewrite run_bind_ok by exact Hr; unfold os_remove; rewrite H1'; reflexivity
          | reflexivity].
    - erewrite run_try_caught;
        [reflexivity
        | erewrite run_bind_raise; [reflexivity|]; unfold os_remove; rewrite H0; reflexivity
        | reflexivity].
  Qed.

Lemma removeArchives_ok w :
    res (removeArchives w) = Ok tt →
    out (removeArchives w) = [Remove cv0tgzPath; Remove cv1tgzPath]
    ∧ fs (st (removeArchives w)) !! cv0tgzPath = None
    ∧ fs (st (removeArchives w)) !! cv1tgzPath = None.
  Proof.
    intros Hok. pose proof (removeArchives_cases w) as H.
    destruct (fs w !! cv0tgzPath) as [[|d0]|]; try congruence.
    destruct (fs w !! cv1tgzPath) as [[|d1]|]; try congruence.
    rewrite H. simpl. split_and!; [reflexivity | |].
    - rewrite lookup_delete_ne by done. apply lookup_delete_eq.
    - apply lookup_delete_eq.
  Qed.
End ArchiveFacts.

(** ** Facts about the selection and the downloads *)

Section PairFacts.
Import Py Os Probe Probe.bcolors Facts.

Lemma requested_picked a b c d : requested (picked a b c d) = [].
  Proof. unfold picked. by destruct (truthy a && truthy b && truthy c && truthy d). Qed.

  (** Position 0 is the run's version: both identifiers and both links are
      read, and the identifiers returned. *)
Lemma pickVersions_pair runBlob l w s blob e0 e1 rest d0 c1 d1 :
    subscripts runBlob cv_id_path = Ok (JStr s) →
    cvListBlob l = Some blob →
    getitem blob (K "data") = Ok (JArr (e0 :: e1 :: rest)) →
    subscripts e0 [K "id"] = Ok (JStr s) →
    subscripts e0 [K "links"; K "download"] = Ok d0 →
    subscripts e1 [K "id"] = Ok c1 →
    subscripts e1 [K "links"; K "download"] = Ok d1 →
    pickVersions runBlob l w = Reply (Ok (JStr s, c1)) w (picked (JStr s) d0 c1 d1).
  Proof.
    intros Hcv Hl Hdata H0 Hd0 H1 Hd1. unfold pickVersions, picked.
    rewrite Hcv, run_lift_ok, Hl. cbn [read_local]. rewrite run_lift_ok.
    rewrite !(data_path _ _ _ _ Hdata), !seq_get_0, !seq_get_1. cbn [rbind].
    rewrite H0, Hd0, H1, Hd1, run_lift_ok.
    unfold py_ne. rewrite py_eq_str. cbn [negb]. rewrite run_ret, !run_lift_ok.
    destruct (truthy (JStr s) && truthy d0 && truthy c1 && truthy d1); reflexivity.
  Qed.

  (** Position 0 is another version: the line is printed and the run
      ends. *)
Lemma pickVersions_mismatch runBlob l w cv blob head :
    subscripts runBlob cv_id_path = Ok cv →
    cvListBlob l = Some blob →
    subscripts blob [K "data"; I 0; K "id"] = Ok head →
    py_ne cv head = true →
    pickVersions runBlob l w
    = Reply (Raise (SystemExit 1)) w [Print (mismatch_line cv head)].
  Proof.
    intros Hcv Hl Hhead Hne. unfold pickVersions.
    rewrite Hcv, run_lift_ok, Hl. cbn [read_local]. rewrite run_lift_ok.
    rewrite Hhead, run_lift_ok, Hne. reflexivity.
  Qed.

Lemma download_path_ne cv : String.eqb (download_path cv) "" = false.
  Proof. reflexivity. Qed.

Lemma downloadable_stored g w path d :
    downloadable g (stored w cv0tgzPath d) path cv1tgzPath
    = downloadable g w path cv1tgzPath.
  Proof.
    unfold downloadable, stored. cbn [net fs set_fs].
    by rewrite lookup_insert_ne.
  Qed.

  (** The two downloads: the second is attempted only after the first
      was stored, and each sends one request. *)
Lemma downloadVersions_cases g Q D cv0 cv1 w :
    ∃ evs0 evs1,
      requested evs0 = [api g (download_path cv0)]
      ∧ requested evs1 = [api g (download_path cv1)]
      ∧ downloadVersions g Q D cv0 cv1 w =
        match downloadable g w (download_path cv0) cv0tgzPath with
        | None => Reply (Raise (SystemExit 1)) w evs0
        | Some d0 =>
            match downloadable g w (download_path cv1) cv1tgzPath with
            | None => Reply (Raise (SystemExit 1)) (stored w cv0tgzPath d0) (evs0 ++ evs1)
            | Some d1 =>
                Reply (Ok tt) (stored (stored w cv0tgzPath d0) cv1tgzPath d1) (evs0 ++ evs1)
            end
        end.
  Proof.
    unfold downloadVersions. fold (download_path cv0). fold (download_path cv1).
    destruct (callTFE_download g Q D (download_path cv0) cv0tgzPath w
                (download_path_ne cv0) eq_refl) as (evs0 & Hr0 & Hc0).
    exists evs0.
    destruct (downloadable g w (download_path cv0) cv0tgzPath) as [d0|] eqn:Hd0.
    - fold (stored w cv0tgzPath d0) in Hc0.
      destruct (callTFE_download g Q D (download_path cv1) cv1tgzPath
                  (stored w cv0tgzPath d0) (download_path_ne cv1) eq_refl)
        as (evs1 & Hr1 & Hc1).
      rewrite downloadable_stored in Hc1.
      exists evs1. split_and!; [done..|].
      erewrite run_bind_ok by exact Hc0.
      change (py_ne (JStr "OK") (JStr "OK")) with false. cbv iota. rewrite run_ret.
      destruct (downloadable g w (download_path cv1) cv1tgzPath) as [d1|].
      + erewrite run_bind_ok by exact Hc1. rewrite prepend_prepend.
        unfold prepend. cbn [mret M_ret ret res st out]. by rewrite app_nil_r.
      + erewrite run_bind_raise by exact Hc1. reflexivity.
    - exists [HttpGet (api g (download_path cv1)) (bearer g)]. split_and!; [done..|].
      erewrite run_bind_raise by exact Hc0. reflexivity.
  Qed.

Lemma stored_lookup w p d : fs (stored w p d) !! p = Some (File d).
  Proof. unfold stored. cbn [fs set_fs]. apply lookup_insert_eq. Qed.

Lemma stored_lookup_ne w p q d : p ≠ q → fs (stored w p d) !! q = fs w !! q.
  Proof. intros H. unfold stored. cbn [fs set_fs]. by apply lookup_insert_ne. Qed.

  (** The steps after the downloads, when all of them succeed. *)
Lemma unpack_trace w :
    res ((extractVersions;; removeArchives;; diffDirs) w) = Ok tt →
    let r := (extractVersions;; removeArchives;; diffDirs) w in
    out r = unpacked ++ map Print name_diff
    ∧ fs (st r) !! cv0tgzPath = None ∧ fs (st r) !! cv1tgzPath = None.
  Proof.
    intros H. cbv zeta.
    apply bind_ok_inv in H as ([] & Hx & H & Ex). rewrite Ex.
    apply bind_ok_inv in H as ([] & Hr & H & Er). rewrite Er.
    rewrite diffDirs_reply. cbn [out st prepend].
    rewrite (extractVersions_trace _ Hx).
    destruct (removeArchives_ok _ Hr) as (-> & ? & ?).
    split_and!; [reflexivity | assumption | assumption].
  Qed.
End PairFacts.

(** * Properties *)

Section Startup.
Import Py Os Probe Probe.bcolors Facts Scenario.

(** ** Start-up *)

(** C8.  When [TFE_ADDR] is not set, the process does not reach the check
    at the head of [main]: the module body calls [startswith] on [None]
    first.  The run ends in an uncaught [AttributeError], with nothing
    printed and the world untouched. *)
Theorem missing_address_crashes_unreported (env : environ) (arg : arguments) (w : world) :
  getenv env "TFE_ADDR" = None →
  program env arg w =
  Reply (Raise (Exc AttributeError "'NoneType' object has no attribute 'startswith'")) w [].
Proof. intros H. unfold program, module_body. rewrite H. reflexivity. Qed.

Lemma missing_address_witness :
  program env_no_addr (args0 false) w_down =
  Reply (Raise (Exc AttributeError "'NoneType' object has no attribute 'startswith'"))
        w_down [].
Proof. apply missing_address_crashes_unreported. reflexivity. Defined.

(** ** The diff *)

(** C1.  [diffDirs] never opens the two directories: it compares their
    names, character by character.  In every world, also one where the two
    extracted trees are identical, it prints the same five lines, and what
    it prints does not depend on the world. *)
Theorem diffDirs_compares_the_names (w w' : world) :
  res (diffDirs w) = Ok tt
  ∧ stdout (out (diffDirs w)) = name_diff
  ∧ out (diffDirs w) = out (diffDirs w').
Proof. rewrite !diffDirs_reply. split_and!; reflexivity. Qed.

(** ** The scratch directories *)

(** C7.  When one of the two scratch directories already exists, [create]
    does not reuse it: the run ends in [exit(1)], the line naming the
    directory that could not be made is printed, and that directory is left
    as it was.  In particular a second [create] after a successful one
    fails.  (With [--debug] the line drawn before each attempt needs a
    numeric terminal width.) *)
Theorem prepare_refuses_existing (g : globals) (DEBUG : bool) (w : world) :
  (DEBUG = true → tty_ok g) →
  is_Some (fs w !! cv0tgzDir) ∨ is_Some (fs w !! cv1tgzDir) →
  let create := handleDirectories g DEBUG "create" in
  (∃ dir, (dir = cv0tgzDir ∨ dir = cv1tgzDir) ∧ is_Some (fs w !! dir) ∧
     res (create w) = Raise (SystemExit 1) ∧
     Print (failed_to "create" dir) ∈ out (create w) ∧
     fs (st (create w)) !! dir = fs w !! dir)
  ∧ (∀ w0, res (create w0) = Ok tt → res (create (st (create w0))) = Raise (SystemExit 1)).
Proof.
  intros Htty Hex create. split; [by apply prepare_exists|].
  intros w0 Hok.
  assert (unstaged w0) as Hun.
  { split.
    - destruct (fs w0 !! cv0tgzDir) eqn:H0; [|done].
      destruct (prepare_exists g DEBUG w0 Htty) as (dir & _ & _ & Hres & _).
      { left. rewrite H0. eauto. }
      unfold create in Hok. congruence.
    - destruct (fs w0 !! cv1tgzDir) eqn:H1; [|done].
      destruct (prepare_exists g DEBUG w0 Htty) as (dir & _ & _ & Hres & _).
      { right. rewrite H1. eauto. }
      unfold create in Hok. congruence. }
  destruct (prepare_fresh g DEBUG w0 Htty Hun) as [evs Hevs].
  unfold create. rewrite Hevs. simpl.
  destruct (prepare_exists g DEBUG
              (set_fs w0 (<[cv1tgzDir := Dir]> (<[cv0tgzDir := Dir]> (fs w0)))) Htty)
    as (dir & _ & _ & Hres & _); [|exact Hres].
  right. simpl. rewrite lookup_insert_eq. eauto.
Qed.

Lemma prepare_refuses_existing_witness :
  let create := handleDirectories g0 true "create" in
  (∃ dir, (dir = cv0tgzDir ∨ dir = cv1tgzDir) ∧ is_Some (fs w_stale !! dir) ∧
     res (create w_stale) = Raise (SystemExit 1) ∧
     Print (failed_to "create" dir) ∈ out (create w_stale) ∧
     fs (st (create w_stale)) !! dir = fs w_stale !! dir)
  ∧ (∀ w0, res (create w0) = Ok tt → res (create (st (create w0))) = Raise (SystemExit 1)).
Proof.
  apply (prepare_refuses_existing g0 true w_stale).
  - intros _. exists 4. reflexivity.
  - left. exists Dir. reflexivity.
Defined.

End Startup.

Section Token.
Import Py Os Probe Probe.bcolors Facts Scenario.

Lemma chars_of_append (a b : string) :
    list_ascii_of_string (a +:+ b) = list_ascii_of_string a ++ list_ascii_of_string b.
  Proof. induction a as [|c a IH]; simpl; [reflexivity | by rewrite IH]. Qed.

Lemma chars_inj (a b : string) :
    list_ascii_of_string a = list_ascii_of_string b → a = b.
  Proof.
    intros H. rewrite <- (string_of_list_ascii_of_string a),
                      <- (string_of_list_ascii_of_string b). by rewrite H.
  Qed.

Lemma append_cancel_r (a b e : string) : a +:+ e = b +:+ e → a = b.
  Proof.
    intros H. apply chars_inj. apply (f_equal list_ascii_of_string) in H.
    rewrite !chars_of_append in H. by apply app_inv_tail in H.
  Qed.

Lemma append_cancel_l (p a b : string) : p +:+ a = p +:+ b → a = b.
  Proof. induction p as [|c p IH]; simpl; [done|]. intros H. apply IH. by inversion H. Qed.

Lemma token_line_inj t t' : token_line t = token_line t' → t = t'.
  Proof.
    unfold token_line. intros H.
    do 5 apply append_cancel_l in H. by apply append_cancel_r in H.
  Qed.

Lemma stdout_app evs evs' : stdout (evs ++ evs') = stdout evs ++ stdout evs'.
  Proof. unfold stdout. apply omap_app. Qed.

Lemma report_header g org w n :
    int_of_string (columns g) = Ok n →
    ∃ rest,
      stdout (out (runReport g false true org w)) =
      [Default; str_mul "#" n; "";
       Green +:+ "TFE." +:+ Default +:+ "Address:         " +:+ BWhite
         +:+ fmt (TFE_ADDR g) +:+ Endc;
       Green +:+ "TFE." +:+ Default +:+ "CA Cert file:    " +:+ BWhite
         +:+ fmt (TFE_CACERT g) +:+ Endc;
       token_line (fmt (TFE_TOKEN g))] ++ rest.
  Proof.
    intros Hn. unfold runReport. cbn [negb].
    erewrite run_bind_ok.
    2:{ erewrite run_bind_ok by (by apply drawLine_ok). rewrite !run_print. reflexivity. }
    eexists. unfold prepend. cbn [out]. rewrite !stdout_app. reflexivity.
  Qed.

  (** C10.  With [--debug] and without [--quiet], the sixth line on
      standard output is the token, verbatim; two runs that differ in
      nothing but the token therefore print different outputs. *)
Theorem debug_prints_the_token (g : globals) (org : string) (w : world) (n : Z)
      (token : string) :
    TFE_TOKEN g = Some token →
    int_of_string (columns g) = Ok n →
    let output g := stdout (out (runReport g false true org w)) in
    output g !! 5%nat = Some (token_line token)
    ∧ ∀ token', token' ≠ token → output (with_token g token') ≠ output g.
  Proof.
    intros Htok Hn output.
    assert (∀ g' t, TFE_TOKEN g' = Some t → columns g' = columns g →
                    output g' !! 5%nat = Some (token_line t)) as Hline.
    { intros g' t Ht Hc. unfold output.
      destruct (report_header g' org w n) as [rest Hrest]; [by rewrite Hc|].
      rewrite Hrest, Ht. reflexivity. }
    split; [by apply Hline|].
    intros token' Hne Heq.
    assert (output (with_token g token') !! 5%nat = Some (token_line token')) as H1
      by (by apply Hline).
    rewrite Heq, (Hline g token Htok eq_refl) in H1.
    apply Hne. symmetry. apply token_line_inj. congruence.
  Qed.

Lemma debug_prints_the_token_witness :
    let output g := stdout (out (runReport g false true "acme" w_down)) in
    output g0 !! 5%nat = Some (token_line "s3cr3t")
    ∧ ∀ token', token' ≠ "s3cr3t" → output (with_token g0 token') ≠ output g0.
  Proof. apply (debug_prints_the_token g0 "acme" w_down 4 "s3cr3t"); reflexivity. Defined.
End Token.

Section Lifecycle.
Import Py Os Probe Probe.bcolors Facts Scenario.

Lemma rmtree_dir p w :
    fs w !! p = Some Dir →
    shutil_rmtree p w =
    Reply (Ok tt) (set_fs w (filter (λ kv, kv.1 ≠ p ∧ under p kv.1 = false) (fs w)))
          [Rmtree p].
  Proof. intros H. unfold shutil_rmtree. by rewrite H. Qed.

Lemma delete_preamble g (DEBUG : bool) dir w :
    (DEBUG = true → tty_ok g) →
    ∃ evs, ∀ B (f : unit → M B),
      ((if DEBUG
        then drawLine g ≫= λ _ : (),
             print (Magenta +:+ "Deleting temporary directory: " +:+ dir +:+ Endc)
        else mret ()) ≫= f) w = prepend evs (f tt w).
  Proof.
    intros Htty. destruct DEBUG.
    - destruct (Htty eq_refl) as [n Hn].
      eexists. intros B f.
      erewrite run_bind_ok; [reflexivity|].
      erewrite run_bind_ok by (by apply drawLine_ok).
      reflexivity.
    - exists []. intros B f. rewrite run_ret. by rewrite prepend_nil.
  Qed.

  (** On a staged file system, [delete] removes both directories. *)
Lemma teardown_staged g DEBUG w :
    (DEBUG = true → tty_ok g) → staged w →
    res (handleDirectories g DEBUG "delete" w) = Ok tt
    ∧ unstaged (st (handleDirectories g DEBUG "delete" w)).
  Proof.
    intros Htty [H0 H1]. unfold handleDirectories.
    cbn [String.eqb Ascii.eqb Bool.eqb for_each].
    destruct (delete_preamble g DEBUG cv0tgzDir w Htty) as [evs0 Hevs0].
    erewrite run_bind_ok.
    2:{ apply run_try_ok. rewrite Hevs0. rewrite rmtree_dir by done. reflexivity. }
    set (w1 := set_fs w _).
    assert (fs w1 !! cv1tgzDir = Some Dir) as Hw1.
    { unfold w1. simpl. apply map_lookup_filter_Some. split; [done|]. simpl. split; done. }
    assert (fs w1 !! cv0tgzDir = None) as Hw0.
    { unfold w1. simpl. apply map_lookup_filter_None. right. intros n _ [Hne _]. done. }
    destruct (delete_preamble g DEBUG cv1tgzDir w1 Htty) as [evs1 Hevs1].
    erewrite run_bind_ok.
    2:{ apply run_try_ok. rewrite Hevs1. rewrite rmtree_dir by done. reflexivity. }
    simpl. split; [reflexivity|]. split.
    - apply map_lookup_filter_None. left. exact Hw0.
    - apply map_lookup_filter_None. right. intros n _ [Hne _]. done.
  Qed.

  (** A run that gets past the checks of [main]. *)
Lemma main_past_the_checks g arg org w :
    is_Some (TFE_ADDR g) → is_Some (TFE_TOKEN g) → is_Some (TFE_CACERT g) →
    arg_org arg = Some org → org ≠ "" →
    (arg_debug arg = true → tty_ok g) →
    unstaged w →
    (res (main g arg w) = Ok tt → unstaged (st (main g arg w)))
    ∧ (∀ e, res (main g arg w) = Raise e → staged (st (main g arg w))).
  Proof.
    intros [a Ha] [t Ht] [c Hc] Horg Hne Htty Hun.
    split.
    all: unfold main; rewrite Ha, Ht, Hc, Horg; cbn match;
      rewrite !run_ret;
      (destruct (String.eqb_spec org "") as [->|_]; [done|]);
      rewrite run_ret;
      destruct (prepare_fresh g (arg_debug arg) w Htty Hun) as [evs Hevs];
      erewrite run_bind_ok by exact Hevs;
      set (w1 := set_fs w _);
      (assert (staged w1) as Hst
         by (split; unfold w1; simpl;
             [rewrite lookup_insert_ne by done; apply lookup_insert_eq
             | apply lookup_insert_eq]));
      rewrite run_bind;
      destruct (Grows_runReport g (arg_quiet arg) (arg_debug arg) org w1) as [Hg _];
      pose proof (grows_staged _ _ Hg Hst) as Hst2;
      destruct (res (runReport g (arg_quiet arg) (arg_debug arg) org w1)) as [[]|e'];
      simpl.
    - intros _. apply teardown_staged; auto.
    - discriminate.
    - intros e He.
      destruct (teardown_staged g (arg_debug arg)
                  (st (runReport g (arg_quiet arg) (arg_debug arg) org w1)) Htty Hst2)
        as [Hok _]. congruence.
    - intros e _. exact Hst2.
  Qed.

  (** A run that one of the checks of [main] stops. *)
Lemma main_stopped_by_a_check g arg w :
    ¬ inputs_complete g arg →
    ∃ line, main g arg w = Reply (Raise (SystemExit 1)) w [Print line].
  Proof.
    intros Hno. unfold main.
    destruct (TFE_ADDR g) as [a|] eqn:Ha; [|eexists; reflexivity].
    destruct (TFE_TOKEN g) as [t|] eqn:Ht; [|eexists; reflexivity].
    destruct (TFE_CACERT g) as [c|] eqn:Hc; [|eexists; reflexivity].
    destruct (arg_org arg) as [org|] eqn:Horg; [|eexists; reflexivity].
    destruct (String.eqb_spec org "") as [->|Hne]; [eexists; reflexivity|].
    destruct Hno. unfold inputs_complete. rewrite Ha, Ht, Hc. eauto 10.
  Qed.

  (** C6, as the code has it.  The scratch directories are made once, by
      [main] after its checks of the environment and of the arguments, and
      removed once, after the report.  A run that starts without them
      (under [--debug], on a terminal whose width is a number) ends without
      them when it completes; when one of the checks stops it, nothing was
      made and the world is untouched; when it stops later, on a fault or an
      [exit] of the report, both are still in place.  Within the report no
      iteration removes anything but the two archive files, so the
      directories and what was unpacked into them are still there for the
      next workspace. *)
Theorem staging_lifecycle (g : globals) (arg : arguments) (w : world) :
    (arg_debug arg = true → tty_ok g) →
    unstaged w →
    let r := main g arg w in
    (res r = Ok tt → unstaged (st r))
    ∧ (∀ e, res r = Raise e →
            (inputs_complete g arg → staged (st r))
            ∧ (¬ inputs_complete g arg → st r = w ∧ unstaged (st r)))
    ∧ (∀ QUIET DEBUG key ws l w' p,
         is_Some (fs w' !! p) → p ≠ cv0tgzPath → p ≠ cv1tgzPath →
         is_Some (fs (st (reportWorkspace g QUIET DEBUG key ws l w')) !! p)).
  Proof.
    intros Htty Hun r. subst r. split_and!.
    - intros Hok.
      assert (inputs_complete g arg ∨ ¬ inputs_complete g arg) as [Hc|Hc].
      { unfold inputs_complete.
        destruct (TFE_ADDR g), (TFE_TOKEN g), (TFE_CACERT g);
          try (right; intros (Ha & Ht & Hc & _);
               first [by destruct Ha | by destruct Ht | by destruct Hc]).
        destruct (arg_org arg) as [org|]; [|right; intros (_ & _ & _ & o & Ho & _); done].
        destruct (String.eqb_spec org "") as [->|Hne].
        - right. intros (_ & _ & _ & o & [= <-] & Ho). done.
        - left. eauto 10. }
      + destruct Hc as (Ha & Ht & Hc & org & Horg & Hne).
        by apply (main_past_the_checks g arg org w Ha Ht Hc Horg Hne Htty Hun).
      + destruct (main_stopped_by_a_check g arg w Hc) as [line Hl].
        rewrite Hl in Hok. discriminate.
    - intros e He. split.
      + intros (Ha & Ht & Hc & org & Horg & Hne).
        by apply (main_past_the_checks g arg org w Ha Ht Hc Horg Hne Htty Hun) with e.
      + intros Hc. destruct (main_stopped_by_a_check g arg w Hc) as [line ->].
        by split.
    - intros Q D key ws l w' p Hp H0 H1.
      destruct (Grows_reportWorkspace g Q D key ws l w') as [Hg _].
      by apply (Hg p).
  Qed.
End Lifecycle.

Section LifecycleRuns.
Import Py Os Probe Probe.bcolors Facts Scenario.

Lemma staging_lifecycle_witness :
    let r := main g0 (args0 true) w_down in
    (res r = Ok tt → unstaged (st r))
    ∧ (∀ e, res r = Raise e →
            (inputs_complete g0 (args0 true) → staged (st r))
            ∧ (¬ inputs_complete g0 (args0 true) → st r = w_down ∧ unstaged (st r)))
    ∧ (∀ QUIET DEBUG key ws l w' p,
         is_Some (fs w' !! p) → p ≠ cv0tgzPath → p ≠ cv1tgzPath →
         is_Some (fs (st (reportWorkspace g0 QUIET DEBUG key ws l w')) !! p)).
  Proof.
    apply (staging_lifecycle g0 (args0 true) w_down).
    - intros _. exists 4. reflexivity.
    - split; reflexivity.
  Defined.

  (** The claim of C6 fails as stated: the service cannot be reached, the
      run stops with [exit(1)], and both scratch directories are still there
      when the process ends. *)
Lemma staging_left_behind :
    res (main g0 (args0 false) w_down) = Raise (SystemExit 1)
    ∧ staged (st (main g0 (args0 false) w_down))
    ∧ ¬ unstaged (st (main g0 (args0 false) w_down)).
  Proof.
    assert (res (main g0 (args0 false) w_down) = Raise (SystemExit 1)
            ∧ staged (st (main g0 (args0 false) w_down))) as [H1 H2].
    { split; [vm_compute; reflexivity | split; vm_compute; reflexivity]. }
    split_and!; [done..|]. intros [H3 _]. destruct H2 as [H2 _]. congruence.
  Qed.
End LifecycleRuns.

Section Versions.
Import Py Os Probe Probe.bcolors Facts Scenario.

Lemma compareVersions_unbound g Q D ws runBlob l w l' evs :
    listVersions g Q D ws runBlob l w = Reply (Ok l') w evs →
    multipleCV l' = None →
    compareVersions g Q D ws runBlob l w =
    Reply (Raise (unbound "multipleCV")) w evs.
  Proof.
    intros Hl Hm. unfold compareVersions.
    erewrite run_bind_ok by exact Hl. rewrite Hm. cbn [read_local].
    rewrite run_lift_raise. unfold prepend; simpl. by rewrite app_nil_r.
  Qed.

Lemma compareVersions_picks g Q D ws runBlob l w l' evs e :
    listVersions g Q D ws runBlob l w = Reply (Ok l') w evs →
    multipleCV l' = Some true →
    res (pickVersions runBlob l' w) = Raise e →
    compareVersions g Q D ws runBlob l w =
    Reply (Raise e) w (evs ++ out (pickVersions runBlob l' w)).
  Proof.
    intros Hl Hm Hp. unfold compareVersions.
    erewrite run_bind_ok by exact Hl. rewrite Hm. cbn [read_local].
    rewrite run_lift_ok.
    assert (diffVersions g Q D runBlob l' w
            = Reply (Raise e) w (out (pickVersions runBlob l' w))) as Hd.
    { unfold diffVersions. rewrite (run_bind_res_raise _ _ _ _ Hp), pickVersions_frozen.
      reflexivity. }
    erewrite run_bind_raise by exact Hd. reflexivity.
  Qed.

  (** C2, as the code has it.  When the run names a ["cv-"] version and the
      listing holds exactly one entry, the block never completes: whatever
      the flags of earlier iterations, it ends in an exception, having sent
      the listing request only and left the world as it was. *)
Theorem single_version_faults (g : globals) (QUIET DEBUG : bool) (ws : wsinfo)
      (runBlob : json) (l : locals) (w : world) (s : string) (blob entry : json) :
    reachable l →
    subscripts runBlob cv_id_path = Ok (JStr s) → String.prefix "cv-" s = true →
    net w (api g (versions_path ws)) (bearer g) = Resp (BodyJson blob) →
    getitem blob (K "data") = Ok (JArr [entry]) →
    let r := compareVersions g QUIET DEBUG ws runBlob l w in
    faults r ∧ requested (out r) = [api g (versions_path ws)] ∧ st r = w.
  Proof.
    intros [_ Hreach] Hcv Hpre Hnet Hdata r. subst r.
    pose proof (listVersions_fetched g QUIET DEBUG ws runBlob l w s blob Hcv Hpre Hnet) as Hl.
    destruct (len_of_keyed _ _ Hdata) as (n & Hlen & Hn). rewrite Hlen in Hl.
    replace (n =? 0) with false in Hl by (symmetry; apply Z.eqb_neq; lia).
    assert (∀ l', cvListBlob l' = Some blob →
              listVersions g QUIET DEBUG ws runBlob l w
              = Reply (Ok l') w (fetched g QUIET DEBUG (versions_path ws) blob) →
              multipleCV l' = Some true →
              let r := compareVersions g QUIET DEBUG ws runBlob l w in
              faults r ∧ requested (out r) = [api g (versions_path ws)] ∧ st r = w)
      as Hpick.
    { intros l' Hb Hl' Hm r.
      destruct (pickVersions_single runBlob l' w _ _ _ Hcv Hb Hdata) as [e He].
      unfold r. rewrite (compareVersions_picks _ _ _ _ _ _ _ _ _ _ Hl' Hm He).
      split_and!; [by eexists | | reflexivity].
      cbn [out]. by rewrite requested_app, requested_fetched, pickVersions_offline. }
    destruct (n =? 1).
    - destruct (multipleCV l) as [[|]|] eqn:Hm; [|done|].
      + eapply Hpick; [| exact Hl |]; reflexivity.
      + rewrite (compareVersions_unbound _ _ _ _ _ _ _ _ _ Hl eq_refl).
        split_and!; [by eexists | | reflexivity].
        cbn [out]. apply requested_fetched.
    - eapply Hpick; [| exact Hl |]; reflexivity.
  Qed.

  (** C5.  When the run names a ["cv-"] version and the listing holds no
      version, the block does not complete: whatever the answer looks like
      around its empty list and whatever the flags of earlier iterations, it
      ends in an exception that nothing catches, so the process ends with
      status 1.  Only the listing was requested and the world is as it
      was. *)
Theorem empty_list_is_fatal (g : globals) (QUIET DEBUG : bool) (ws : wsinfo)
      (runBlob : json) (l : locals) (w : world) (s : string) (blob : json) :
    reachable l →
    subscripts runBlob cv_id_path = Ok (JStr s) → String.prefix "cv-" s = true →
    net w (api g (versions_path ws)) (bearer g) = Resp (BodyJson blob) →
    getitem blob (K "data") = Ok (JArr []) →
    let r := compareVersions g QUIET DEBUG ws runBlob l w in
    (∃ e, res r = Raise e ∧ exit_status e = 1
          ∧ (e = Exc IndexError "list index out of range" ∨ e = unbound "multipleCV"))
    ∧ requested (out r) = [api g (versions_path ws)]
    ∧ st r = w.
  Proof.
    intros [_ Hreach] Hcv Hpre Hnet Hdata r. subst r.
    pose proof (listVersions_fetched g QUIET DEBUG ws runBlob l w s blob Hcv Hpre Hnet) as Hl.
    destruct (len_of_keyed _ _ Hdata) as (n & Hlen & Hn). rewrite Hlen in Hl.
    replace (n =? 0) with false in Hl by (symmetry; apply Z.eqb_neq; lia).
    assert (∀ l', cvListBlob l' = Some blob →
              listVersions g QUIET DEBUG ws runBlob l w
              = Reply (Ok l') w (fetched g QUIET DEBUG (versions_path ws) blob) →
              multipleCV l' = Some true →
              compareVersions g QUIET DEBUG ws runBlob l w
              = Reply (Raise (Exc IndexError "list index out of range")) w
                      (fetched g QUIET DEBUG (versions_path ws) blob))
      as Hpick.
    { intros l' Hb Hl' Hm.
      pose proof (pickVersions_none runBlob l' w _ _ Hcv Hb Hdata) as Hp.
      erewrite compareVersions_picks; [| exact Hl' | exact Hm | by rewrite Hp].
      rewrite Hp. cbn [out]. by rewrite app_nil_r. }
    assert (compareVersions g QUIET DEBUG ws runBlob l w
            = Reply (Raise (Exc IndexError "list index out of range")) w
                    (fetched g QUIET DEBUG (versions_path ws) blob)
            ∨ compareVersions g QUIET DEBUG ws runBlob l w
              = Reply (Raise (unbound "multipleCV")) w
                      (fetched g QUIET DEBUG (versions_path ws) blob)) as [-> | ->].
    { destruct (n =? 1).
      - destruct (multipleCV l) as [[|]|] eqn:Hm; [|done|].
        + left. eapply Hpick; [| exact Hl |]; reflexivity.
        + right. by rewrite (compareVersions_unbound _ _ _ _ _ _ _ _ _ Hl eq_refl).
      - left. eapply Hpick; [| exact Hl |]; reflexivity. }
    all: cbn [res st out]; rewrite requested_fetched;
      (split_and!; [eexists; split_and!; [reflexivity | reflexivity | auto]
                   | reflexivity | reflexivity]).
  Qed.
End Versions.

Section VersionRuns.
Import Py Os Probe Probe.bcolors Facts Scenario.

Lemma single_version_faults_witness :
    let r := compareVersions g0 false false wsinfo1 (run_of "cv-1") no_locals
               (world_of "cv-1" one_version staged_files) in
    faults r ∧ requested (out r) = [api g0 (versions_path wsinfo1)]
    ∧ st r = world_of "cv-1" one_version staged_files.
  Proof.
    apply (single_version_faults g0 false false wsinfo1 (run_of "cv-1") no_locals
             (world_of "cv-1" one_version staged_files) "cv-1" one_version
             (version "cv-1" "https://archivist/v1/object/aaa")).
    - split; discriminate.
    - reflexivity.
    - reflexivity.
    - reflexivity.
    - reflexivity.
  Defined.

Lemma empty_list_is_fatal_witness :
    let r := compareVersions g0 false false wsinfo1 (run_of "cv-1") no_locals
               (world_of "cv-1" no_version staged_files) in
    (∃ e, res r = Raise e ∧ exit_status e = 1
          ∧ (e = Exc IndexError "list index out of range" ∨ e = unbound "multipleCV"))
    ∧ requested (out r) = [api g0 (versions_path wsinfo1)]
    ∧ st r = world_of "cv-1" no_version staged_files.
  Proof.
    apply (empty_list_is_fatal g0 false false wsinfo1 (run_of "cv-1") no_locals
             (world_of "cv-1" no_version staged_files) "cv-1" no_version).
    - split; discriminate.
    - reflexivity.
    - reflexivity.
    - reflexivity.
    - reflexivity.
  Defined.
End VersionRuns.

Section Mismatch.
Import Py Os Probe Probe.bcolors Facts Scenario.

  (** The listing completes with [multipleCV] set as soon as the answer has
      two members, or the name was set before. *)
Lemma listVersions_multiple g Q D ws runBlob l w s blob n :
    subscripts runBlob cv_id_path = Ok (JStr s) → String.prefix "cv-" s = true →
    net w (api g (versions_path ws)) (bearer g) = Resp (BodyJson blob) →
    py_len blob = Ok n → 1 ≤ n → 2 ≤ n ∨ multipleCV l = Some true →
    ∃ l', listVersions g Q D ws runBlob l w
          = Reply (Ok l') w (fetched g Q D (versions_path ws) blob)
          ∧ cvListBlob l' = Some blob ∧ multipleCV l' = Some true.
  Proof.
    intros Hcv Hpre Hnet Hlen Hn Hor.
    pose proof (listVersions_fetched g Q D ws runBlob l w s blob Hcv Hpre Hnet) as Hl.
    rewrite Hlen in Hl.
    replace (n =? 0) with false in Hl by (symmetry; apply Z.eqb_neq; lia).
    destruct (n =? 1) eqn:H1.
    - apply Z.eqb_eq in H1. destruct Hor as [?|Hm]; [lia|].
      eexists. split; [exact Hl|]. split; [reflexivity | exact Hm].
    - eexists. split; [exact Hl|]. split; reflexivity.
  Qed.

  (** C4.  The comparison with position 0 is made inside the block that
      [multipleCV] opens.  On an answer to the listing with two or more
      members, as the service sends them, or once an earlier workspace of
      the report has set the name, a run whose version differs from position
      0 prints the line naming both identifiers, as the last thing it
      prints, and ends in [exit(1)]; the listing is the only request and
      nothing is stored. *)
Theorem mismatch_is_fatal (g : globals) (QUIET DEBUG : bool) (ws : wsinfo)
      (runBlob : json) (l : locals) (w : world) (s : string) (blob head : json) (n : Z) :
    subscripts runBlob cv_id_path = Ok (JStr s) → String.prefix "cv-" s = true →
    net w (api g (versions_path ws)) (bearer g) = Resp (BodyJson blob) →
    py_len blob = Ok n → 2 ≤ n ∨ multipleCV l = Some true →
    subscripts blob [K "data"; I 0; K "id"] = Ok head → py_ne (JStr s) head = true →
    let r := compareVersions g QUIET DEBUG ws runBlob l w in
    res r = Raise (SystemExit 1)
    ∧ out r = fetched g QUIET DEBUG (versions_path ws) blob
              ++ [Print (mismatch_line (JStr s) head)]
    ∧ st r = w.
  Proof.
    intros Hcv Hpre Hnet Hlen Hor Hhead Hne r. subst r.
    assert (1 ≤ n) as Hn.
    { rewrite subscripts_cons in Hhead.
      destruct (getitem blob (K "data")) as [v|e] eqn:Hd; [|discriminate].
      destruct (len_of_keyed _ _ Hd) as (n' & Hlen' & Hn'). congruence. }
    destruct (listVersions_multiple g QUIET DEBUG ws runBlob l w s blob n
                Hcv Hpre Hnet Hlen Hn Hor) as (l' & Hl & Hb & Hm).
    pose proof (pickVersions_mismatch runBlob l' w _ _ _ Hcv Hb Hhead Hne) as Hp.
    erewrite compareVersions_picks; [| exact Hl | exact Hm | by rewrite Hp].
    rewrite Hp. by split_and!.
  Qed.

Lemma mismatch_is_fatal_witness :
    let r := compareVersions g0 false false wsinfo1 (run_of "cv-2") no_locals
               (world_of "cv-2" stale_versions staged_files) in
    res r = Raise (SystemExit 1)
    ∧ out r = fetched g0 false false (versions_path wsinfo1) stale_versions
              ++ [Print (mismatch_line (JStr "cv-2") (JStr "cv-9"))]
    ∧ st r = world_of "cv-2" stale_versions staged_files.
  Proof.
    apply (mismatch_is_fatal g0 false false wsinfo1 (run_of "cv-2") no_locals
             (world_of "cv-2" stale_versions staged_files) "cv-2" stale_versions
             (JStr "cv-9") 3); try reflexivity.
    left. lia.
  Defined.

End Mismatch.

Section Pairing.
Import Py Os Probe Probe.bcolors Facts Scenario.

Lemma out_then_ret {A B} (m : M A) (b : B) w : out ((m;; mret b) w) = out (m w).
  Proof.
    rewrite run_bind. destruct (res (m w)); [|reflexivity].
    unfold prepend. cbn [mret M_ret ret res st out]. apply app_nil_r.
  Qed.

  (** The requests of [diffVersions] once the pair is picked. *)
Lemma diffVersions_requests g Q D runBlob l w cv0 cv1 evs :
    pickVersions runBlob l w = Reply (Ok (cv0, cv1)) w evs → requested evs = [] →
    requested (out (diffVersions g Q D runBlob l w))
    = api g (download_path cv0)
      :: (if downloadable g w (download_path cv0) cv0tgzPath is Some _
          then [api g (download_path cv1)] else []).
  Proof.
    intros Hp Hevs. unfold diffVersions.
    erewrite run_bind_ok by exact Hp. cbn [out prepend].
    rewrite requested_app, Hevs. cbn [app].
    destruct (downloadVersions_cases g Q D cv0 cv1 w) as (evs0 & evs1 & H0 & H1 & Hc).
    destruct (downloadable g w (download_path cv0) cv0tgzPath) as [d0|].
    - destruct (downloadable g w (download_path cv1) cv1tgzPath) as [d1|].
      + erewrite run_bind_ok by exact Hc. cbn [out prepend].
        rewrite !requested_app, H0, H1.
        rewrite (proj2 (Offline_after_download _)). reflexivity.
      + erewrite run_bind_raise by exact Hc. cbn [out].
        rewrite requested_app, H0, H1. reflexivity.
    - erewrite run_bind_raise by exact Hc. cbn [out]. by rewrite H0.
  Qed.

Lemma endpoint_link_url g cv :
    api g (download_path cv) = fmt (TFE_ADDR g) +:+ py_str (endpoint_link cv).
  Proof. reflexivity. Qed.

(** C3.  On an answer to the listing with two or more members, as the
    service sends them, or once an earlier workspace of the report has set
    [multipleCV]: when the list holds at least two versions and position 0
    is the run's version, positions 0 and 1 are the pair handed on as
    current and previous (with the four lines about them printed when both
    identifiers and both links are truthy), and the requests are the
    listing, the download of position 0 and, once that archive is stored,
    the download of position 1.  Each download goes to the endpoint of the
    version's identifier, which for a version whose link is the one the
    service writes is [TFE_ADDR] followed by that link. *)
Theorem pair_is_selected_and_downloaded (g : globals) (QUIET DEBUG : bool) (ws : wsinfo)
    (runBlob : json) (l : locals) (w : world) (s : string) (blob : json) (n : Z)
    (e0 e1 : json) (rest : list json) (d0 c1 d1 : json) :
  subscripts runBlob cv_id_path = Ok (JStr s) → String.prefix "cv-" s = true →
  net w (api g (versions_path ws)) (bearer g) = Resp (BodyJson blob) →
  py_len blob = Ok n → 2 ≤ n ∨ multipleCV l = Some true →
  getitem blob (K "data") = Ok (JArr (e0 :: e1 :: rest)) →
  subscripts e0 [K "id"] = Ok (JStr s) →
  subscripts e0 [K "links"; K "download"] = Ok d0 →
  subscripts e1 [K "id"] = Ok c1 →
  subscripts e1 [K "links"; K "download"] = Ok d1 →
  let r := compareVersions g QUIET DEBUG ws runBlob l w in
  (∃ l', listVersions g QUIET DEBUG ws runBlob l w
         = Reply (Ok l') w (fetched g QUIET DEBUG (versions_path ws) blob)
         ∧ pickVersions runBlob l' w
           = Reply (Ok (JStr s, c1)) w (picked (JStr s) d0 c1 d1))
  ∧ requested (out r)
    = [api g (versions_path ws); api g (download_path (JStr s))]
      ++ (if downloadable g w (download_path (JStr s)) cv0tgzPath is Some _
          then [api g (download_path c1)] else [])
  ∧ (d0 = endpoint_link (JStr s)
     → api g (download_path (JStr s)) = fmt (TFE_ADDR g) +:+ py_str d0)
  ∧ (d1 = endpoint_link c1
     → api g (download_path c1) = fmt (TFE_ADDR g) +:+ py_str d1).
Proof.
  intros Hcv Hpre Hnet Hlen Hor Hdata H0 Hd0 H1 Hd1 r. subst r.
  destruct (len_of_keyed _ _ Hdata) as (n' & Hlen' & Hn').
  assert (1 ≤ n) as Hn by congruence.
  destruct (listVersions_multiple g QUIET DEBUG ws runBlob l w s blob n
              Hcv Hpre Hnet Hlen Hn Hor) as (l' & Hl & Hb & Hm).
  pose proof (pickVersions_pair runBlob l' w s blob e0 e1 rest d0 c1 d1
                Hcv Hb Hdata H0 Hd0 H1 Hd1) as Hp.
  split_and!.
  - by exists l'.
  - unfold compareVersions. erewrite run_bind_ok by exact Hl.
    rewrite Hm. cbn [read_local]. rewrite run_lift_ok. cbn [out prepend].
    rewrite requested_app, requested_fetched, out_then_ret.
    erewrite diffVersions_requests; [reflexivity | exact Hp | apply requested_picked].
  - intros ->. apply endpoint_link_url.
  - intros ->. apply endpoint_link_url.
Qed.

Lemma pair_is_selected_and_downloaded_witness :
  let g := g0 in
  let w := world_of "cv-2" served_pair staged_files in
  let r := compareVersions g false true wsinfo1 (run_of "cv-2") no_locals w in
  (∃ l', listVersions g false true wsinfo1 (run_of "cv-2") no_locals w
         = Reply (Ok l') w (fetched g false true (versions_path wsinfo1) served_pair)
         ∧ pickVersions (run_of "cv-2") l' w
           = Reply (Ok (JStr "cv-2", JStr "cv-1")) w
                   (picked (JStr "cv-2") (endpoint_link (JStr "cv-2")) (JStr "cv-1")
                           (endpoint_link (JStr "cv-1"))))
  ∧ requested (out r)
    = [api g (versions_path wsinfo1); api g (download_path (JStr "cv-2"))]
      ++ (if downloadable g w (download_path (JStr "cv-2")) cv0tgzPath is Some _
          then [api g (download_path (JStr "cv-1"))] else [])
  ∧ (endpoint_link (JStr "cv-2") = endpoint_link (JStr "cv-2")
     → api g (download_path (JStr "cv-2"))
       = fmt (TFE_ADDR g) +:+ py_str (endpoint_link (JStr "cv-2")))
  ∧ (endpoint_link (JStr "cv-1") = endpoint_link (JStr "cv-1")
     → api g (download_path (JStr "cv-1"))
       = fmt (TFE_ADDR g) +:+ py_str (endpoint_link (JStr "cv-1"))).
Proof.
  apply (pair_is_selected_and_downloaded g0 false true wsinfo1 (run_of "cv-2") no_locals
           (world_of "cv-2" served_pair staged_files) "cv-2" served_pair 3
           (served "cv-2") (served "cv-1") []
           (endpoint_link (JStr "cv-2")) (JStr "cv-1") (endpoint_link (JStr "cv-1")));
    try reflexivity.
  left. lia.
Defined.

End Pairing.

Section Archives.
Import Py Os Probe Probe.bcolors Facts Scenario.

(** C9.  When the comparison of two versions completes, both archives had
    been answered by the service and stored under the two fixed paths in
    [/var/tmp]; the trace then ends with the two extractions, the two
    removals and only then the lines of the diff, and neither archive file
    is left.  Whenever one of the two files cannot be removed,
    [removeArchives] ends in [exit(1)]. *)
Theorem archives_are_temporary (g : globals) (QUIET DEBUG : bool) (runBlob : json)
    (l : locals) (w : world) :
  res (diffVersions g QUIET DEBUG runBlob l w) = Ok tt →
  let r := diffVersions g QUIET DEBUG runBlob l w in
  (∃ cv0 cv1 d0 d1 pre,
     downloadable g w (download_path cv0) cv0tgzPath = Some d0
     ∧ downloadable g w (download_path cv1) cv1tgzPath = Some d1
     ∧ (let w' := st (downloadVersions g QUIET DEBUG cv0 cv1 w) in
        fs w' !! cv0tgzPath = Some (File d0) ∧ fs w' !! cv1tgzPath = Some (File d1))
     ∧ out r = pre ++ unpacked ++ map Print name_diff)
  ∧ fs (st r) !! cv0tgzPath = None
  ∧ fs (st r) !! cv1tgzPath = None
  ∧ (∀ w', ¬ (∃ a b, fs w' !! cv0tgzPath = Some (File a)
                     ∧ fs w' !! cv1tgzPath = Some (File b)) →
           res (removeArchives w') = Raise (SystemExit 1)).
Proof.
  intros H r. subst r. unfold diffVersions in *.
  apply bind_ok_inv in H as ([cv0 cv1] & Hp & H & E). rewrite E.
  rewrite pickVersions_frozen in H.
  apply bind_ok_inv in H as ([] & Hd & H & Ed).
  rewrite pickVersions_frozen, Ed.
  destruct (downloadVersions_cases g QUIET DEBUG cv0 cv1 w) as (evs0 & evs1 & _ & _ & Hc).
  destruct (downloadable g w (download_path cv0) cv0tgzPath) as [d0|] eqn:H0;
    [|rewrite Hc in Hd; discriminate].
  destruct (downloadable g w (download_path cv1) cv1tgzPath) as [d1|] eqn:H1;
    [|rewrite Hc in Hd; discriminate].
  destruct (unpack_trace _ H) as (Ho & Hf0 & Hf1).
  cbn [st out prepend]. split_and!.
  - exists cv0, cv1, d0, d1, (out (pickVersions runBlob l w) ++ evs0 ++ evs1).
    split_and!; [exact H0 | exact H1 | | | ].
    + rewrite Hc. cbn [st]. rewrite stored_lookup_ne by done. apply stored_lookup.
    + rewrite Hc. cbn [st]. apply stored_lookup.
    + rewrite Ho, Hc. cbn [out]. by rewrite <- !app_assoc.
  - exact Hf0.
  - exact Hf1.
  - intros w' Hno. pose proof (removeArchives_cases w') as Hr.
    destruct (fs w' !! cv0tgzPath) as [[|a]|]; try exact Hr.
    destruct (fs w' !! cv1tgzPath) as [[|b]|]; try exact Hr.
    destruct Hno. eauto.
Qed.

Lemma archives_are_temporary_witness :
  let l := {| cvListBlob := Some two_versions; firstCV := None; multipleCV := Some true |} in
  let w := world_of "cv-2" two_versions staged_files in
  let r := diffVersions g0 false false (run_of "cv-2") l w in
  (∃ cv0 cv1 d0 d1 pre,
     downloadable g0 w (download_path cv0) cv0tgzPath = Some d0
     ∧ downloadable g0 w (download_path cv1) cv1tgzPath = Some d1
     ∧ (let w' := st (downloadVersions g0 false false cv0 cv1 w) in
        fs w' !! cv0tgzPath = Some (File d0) ∧ fs w' !! cv1tgzPath = Some (File d1))
     ∧ out r = pre ++ unpacked ++ map Print name_diff)
  ∧ fs (st r) !! cv0tgzPath = None
  ∧ fs (st r) !! cv1tgzPath = None
  ∧ (∀ w', ¬ (∃ a b, fs w' !! cv0tgzPath = Some (File a)
                     ∧ fs w' !! cv1tgzPath = Some (File b)) →
           res (removeArchives w') = Raise (SystemExit 1)).
Proof.
  apply (archives_are_temporary g0 false false (run_of "cv-2")
           {| cvListBlob := Some two_versions; firstCV := None; multipleCV := Some true |}
           (world_of "cv-2" two_versions staged_files)).
  vm_compute. reflexivity.
Defined.
End Archives.

(** * Further properties *)

(** ** What a run never does *)

Section Confinement.
Import Py Os Probe Probe.bcolors Facts.

Section Steps.
Variable P : event → Prop.








End Steps.




End Confinement.

(** ** Start-up, [drawLine] and [handleDirectories] *)

Section StartUp.
Import Py Os Probe Probe.bcolors Facts Scenario.








End StartUp.

Section Directories.
Import Py Os Probe Probe.bcolors Facts Scenario.



Local Abbreviation delete_block g DEBUG dir :=
    (try_except
       ((if DEBUG
         then drawLine g ≫= λ _ : (),
              print (Magenta +:+ "Deleting temporary directory: " +:+ dir +:+ Endc)
         else mret ()) ≫= λ _ : (), shutil_rmtree dir)
       HOSError
       (λ error : pyexc,
          print "" ≫= λ _ : (),
          print (BRed +:+ "handleDirectories ERROR failed to " +:+ "delete" +:+ " "
                   +:+ dir +:+ ":" +:+ Endc)
          ≫= λ _ : (), print (exc_text error) ≫= λ _ : (), exit 1)).












End Directories.

(** ** [callTFE] *)

Section Calls.
Import Py Os Probe Probe.bcolors Facts Scenario.









End Calls.

(** ** The report, workspace by workspace *)

Section ReportSteps.
Import Py Os Probe Probe.bcolors Facts Scenario.

Lemma header_quiet g D w B (f : unit → M B) :
    ((if negb true then
        drawLine g;;
        print (Green +:+ "TFE." +:+ Default +:+ "Address:         " +:+ BWhite
                 +:+ fmt (TFE_ADDR g) +:+ Endc);;
        print (Green +:+ "TFE." +:+ Default +:+ "CA Cert file:    " +:+ BWhite
                 +:+ fmt (TFE_CACERT g) +:+ Endc);;
        (if D : bool then
           print (Green +:+ "TFE." +:+ Default +:+ "TFE Token:       " +:+ BWhite
                    +:+ fmt (TFE_TOKEN g) +:+ Endc)
         else mret tt)
      else mret tt) ≫= f) w = f tt w.
  Proof. cbn [negb]. apply run_ret. Qed.





End ReportSteps.

(** ** The listing, the downloads and the archives *)

Section ListingSteps.
Import Py Os Probe Probe.bcolors Facts Scenario.










End ListingSteps.

(** ** The table of workspaces *)

Section Workspaces.
Import Py Os Probe Probe.bcolors Facts Scenario.














End Workspaces.

(** ** Where a member of an archive is written *)

Section Extraction.
Import Py Os Probe Probe.bcolors Facts Scenario.







End Extraction.
